(** * Resume screening front end: a shallow embedding and its properties

    The development follows the TypeScript sources of the front end:
    - [components/ScoreGauge.tsx]      the score gauge,
    - [lib/api.ts]                     the ATS client ([evaluateResumeWithATS],
                                       [evaluateBatchWithATS]),
    - [pages/Index] (handleScreening)  the candidate screening request,
    - [pages/hr/Dashboard.tsx]         the recruiter's batch ranking,
    - [pages/Results.tsx] and the ATS evaluation page: the score breakdown rows,
    - [components/FileUpload.tsx]      the file type check,
    - [components/ProtectedRoute.tsx] and [contexts/HybridAuthContext.tsx]:
                                       the guard of the dashboard and the
                                       sessions.

    JavaScript values are modelled as follows.
    - A [number] is NaN, one of the two infinities, or a finite double, kept as
      the rational it denotes.  The two zeros are one value ([Num 0]): every
      operation used here treats them alike and both print as "0".  A sum
      and a quotient are the exact result rounded to the nearest double
      ([to_double]: IEEE 754 binary64, ties to even); the difference in a
      sort comparator is kept exact, since only its sign is used and rounding
      does not change the sign of a difference of two doubles.
    - A string is the list of its UTF-16 code units, so [length] is the
      JavaScript [.length].
    - Asynchronous functions that call the server run in a small state and
      exception monad over a [World] that records the requests, the console
      and the toasts. *)

From Stdlib Require Import QArith Qround Qabs Qpower ZArith NArith List Bool Lia Lqa.
From Stdlib Require Import SpecFloat.
From Stdlib Require Import Ascii String DecimalString Permutation Sorted.
Import ListNotations.

Set Implicit Arguments.

(* ------------------------------------------------------------------------- *)
(** ** JavaScript numbers *)
(* ------------------------------------------------------------------------- *)

Module JS.

Inductive number : Type :=
| NaN
| Infinity
| NegInfinity
| Num (q : Q).

Definition of_Z (z : Z) : number := Num (inject_Z z).

(** [Math.round] on a finite double: the nearest integer, a tie going
    towards +Infinity. *)
Definition round_half_up (q : Q) : Z := Qfloor (q + (1 # 2)).

Definition Math_round (x : number) : number :=
  match x with
  | Num q => of_Z (round_half_up q)
  | other => other
  end.

(** [Math.min(a, b)] and [Math.max(a, b)]: NaN when an argument is NaN. *)
Definition Math_min (a b : number) : number :=
  match a, b with
  | NaN, _ | _, NaN => NaN
  | NegInfinity, _ | _, NegInfinity => NegInfinity
  | Infinity, y => y
  | x, Infinity => x
  | Num p, Num q => if Qle_bool p q then Num p else Num q
  end.

Definition Math_max (a b : number) : number :=
  match a, b with
  | NaN, _ | _, NaN => NaN
  | Infinity, _ | _, Infinity => Infinity
  | NegInfinity, y => y
  | x, NegInfinity => x
  | Num p, Num q => if Qle_bool p q then Num q else Num p
  end.

(** Truthiness of a number: 0 and NaN are falsy. *)
Definition truthy (x : number) : bool :=
  match x with
  | NaN => false
  | Num q => negb (Qeq_bool q 0)
  | _ => true
  end.

(** [a || b] on numbers. *)
Definition or_else (a b : number) : number := if truthy a then a else b.

(** [a - b]. *)
Definition sub (a b : number) : number :=
  match a, b with
  | NaN, _ | _, NaN => NaN
  | Infinity, Infinity | NegInfinity, NegInfinity => NaN
  | Infinity, _ | _, NegInfinity => Infinity
  | NegInfinity, _ | _, Infinity => NegInfinity
  | Num p, Num q => Num (p - q)
  end.

(** [x > 0], false on NaN. *)
Definition positive (x : number) : bool :=
  match x with
  | Infinity => true
  | Num q => negb (Qle_bool q 0)
  | _ => false
  end.

(** [a >= b] on finite doubles. *)
Definition geq (a b : Q) : bool := Qle_bool b a.

(** [2^e]. *)
Definition pow2 (e : Z) : Q := 2 ^ e.

(** The integer part of the binary logarithm of a positive rational [n/d]:
    [log2 n - log2 d] or one less. *)
Definition ilog2 (q : Q) : Z :=
  let k := (Z.log2 (Qnum q) - Z.log2 (Zpos (Qden q)))%Z in
  if Qle_bool (pow2 k) q then k else (k - 1)%Z.

(** The nearest integer, the even one on a tie. *)
Definition round_half_even (q : Q) : Z :=
  let f := Qfloor q in
  match Qcompare (q - inject_Z f) (1 # 2) with
  | Lt => f
  | Gt => (f + 1)%Z
  | Eq => if Z.even f then f else (f + 1)%Z
  end.

(** The double an exact result is rounded to (IEEE 754 binary64, round to
    nearest, ties to even): a significand of 53 bits, so the last place is
    [2^e] with [e] 52 below the binary logarithm and never below -1074 (the
    subnormals); an infinity once the rounded magnitude reaches [2^1024]. *)
Definition to_double (q : Q) : number :=
  if Qeq_bool q 0 then Num 0
  else
    let e := Z.max (ilog2 (Qabs q) - 52) (-1074) in
    let r := inject_Z (round_half_even (q / pow2 e)) * pow2 e in
    if Qle_bool (pow2 1024) (Qabs r)
    then (if Qle_bool 0 q then Infinity else NegInfinity)
    else Num (Qred r).

(** [a + b]. *)
Definition add (a b : number) : number :=
  match a, b with
  | NaN, _ | _, NaN => NaN
  | Infinity, NegInfinity | NegInfinity, Infinity => NaN
  | Infinity, _ | _, Infinity => Infinity
  | NegInfinity, _ | _, NegInfinity => NegInfinity
  | Num p, Num q => to_double (p + q)
  end.

(** [a / 2]. *)
Definition half (a : number) : number :=
  match a with
  | Num p => to_double (p / 2)
  | other => other
  end.

(** The number a binary64 datum of the Standard Library's [SpecFloat]
    denotes; [to_double] is compared with [SFadd] and [SFdiv] on it below. *)
Definition of_spec_float (x : spec_float) : number :=
  match x with
  | S754_zero _ => Num 0
  | S754_infinity s => if s then NegInfinity else Infinity
  | S754_nan => NaN
  | S754_finite s m e =>
      Num (Qred ((if s then - inject_Z (Zpos m) else inject_Z (Zpos m)) * pow2 e))
  end.

End JS.

Import JS.

(* ------------------------------------------------------------------------- *)
(** ** components/ScoreGauge.tsx *)
(* ------------------------------------------------------------------------- *)

(** [const validScore = Math.max(0, Math.min(100, Math.round(score) || 0));]
    Both definitions of the component in the file compute it the same way. *)
Definition validScore (score : number) : number :=
  Math_max (of_Z 0) (Math_min (of_Z 100) (or_else (Math_round score) (of_Z 0))).

(** The gauge's value as the claim words it: NaN shows 0, any other score
    shows max(0, min(100, round(score))). *)
Definition clamped_round (score : number) : number :=
  match score with
  | NaN => of_Z 0
  | _ => Math_max (of_Z 0) (Math_min (of_Z 100) (Math_round score))
  end.

(** The same value on a finite score, as an integer. *)
Definition clamped_round_Z (q : Q) : Z := Z.max 0 (Z.min 100 (round_half_up q)).

(* ------------------------------------------------------------------------- *)
(** ** JavaScript strings *)
(* ------------------------------------------------------------------------- *)

(** A string is its sequence of UTF-16 code units. *)
Definition jsstring : Type := list N.

(** An ASCII literal of the source as a string. *)
Fixpoint lit (s : string) : jsstring :=
  match s with
  | EmptyString => []
  | String c rest => N_of_ascii c :: lit rest
  end.

(** [a === b] on strings. *)
Fixpoint str_eqb (a b : jsstring) : bool :=
  match a, b with
  | [], [] => true
  | x :: a', y :: b' => (x =? y)%N && str_eqb a' b'
  | _, _ => false
  end.

(** `${n}` for a non-negative integer. *)
Definition decimal (n : N) : jsstring := lit (NilEmpty.string_of_uint (N.to_uint n)).

(** WhiteSpace and LineTerminator code units, the ones [String.prototype.trim]
    strips: TAB, LF, VT, FF, CR, SP, NBSP, U+1680, U+2000..U+200A, U+2028,
    U+2029, U+202F, U+205F, U+3000 and U+FEFF. *)
Definition is_space (c : N) : bool :=
  ((9 <=? c) && (c <=? 13) || (c =? 32) || (c =? 160) || (c =? 5760)
   || (8192 <=? c) && (c <=? 8202) || (c =? 8232) || (c =? 8233)
   || (c =? 8239) || (c =? 8287) || (c =? 12288) || (c =? 65279))%N.

Fixpoint trimStart (s : jsstring) : jsstring :=
  match s with
  | c :: rest => if is_space c then trimStart rest else s
  | [] => []
  end.

Definition trim (s : jsstring) : jsstring := rev (trimStart (rev (trimStart s))).

(** Truthiness of a string: only the empty string is falsy. *)
Definition nonempty (s : jsstring) : bool :=
  match s with [] => false | _ => true end.

(** [a || b] where [a] is a possibly missing string property. *)
Definition str_or (a : option jsstring) (b : jsstring) : jsstring :=
  match a with
  | Some s => if nonempty s then s else b
  | None => b
  end.

(** A JavaScript object used as a string map ([{ [key: string]: string }]). *)
Definition strmap : Type := list (jsstring * jsstring).

Fixpoint get (m : strmap) (key : jsstring) : option jsstring :=
  match m with
  | [] => None
  | (k, v) :: rest => if str_eqb k key then Some v else get rest key
  end.

(* ------------------------------------------------------------------------- *)
(** ** lib/api.ts: the data types *)
(* ------------------------------------------------------------------------- *)

(** Numeric fields decoded from a JSON body are finite, hence rationals. *)

Record ATSCandidateProfile : Type := {
  candidate_summary : jsstring;
  total_experience : Q;
  relevant_experience : Q;
  technical_skills : list jsstring;
  soft_skills : list jsstring;
  tools_technologies : list jsstring;
  certifications : list jsstring;
  education_details : list jsstring;
  job_titles : list jsstring;
  projects_responsibilities : list jsstring;
  achievements_awards : list jsstring;
  domain_experience : list jsstring;
  contact_information : strmap;
  resume_keywords : list jsstring;
  seniority_level : jsstring
}.

Record ATSJobProfile : Type := {
  mandatory_skills : list jsstring;
  good_to_have_skills : list jsstring;
  required_experience : Q;
  required_tools_technologies : list jsstring;
  role_responsibilities : list jsstring;
  education_requirements : list jsstring;
  preferred_certifications : list jsstring;
  required_industry_domain : list jsstring;
  relevant_keywords : list jsstring
}.

Record ATSScoreBreakdown : Type := {
  skill_match_score : Q;
  experience_score : Q;
  keyword_match_score : Q;
  education_match_score : Q;
  certifications_score : Q;
  role_fit_score : Q;
  tech_stack_match_score : Q;
  matched_skills : list jsstring;
  missing_skills : list jsstring;
  matched_tools : list jsstring;
  missing_tools : list jsstring;
  matched_keywords : list jsstring;
  missing_keywords : list jsstring;
  matched_certifications : list jsstring;
  missing_certifications : list jsstring
}.

Record ATSResult : Type := {
  ats_score : Q;
  status : jsstring;
  score_breakdown : ATSScoreBreakdown;
  candidate_profile : ATSCandidateProfile;
  job_profile : ATSJobProfile;
  professional_summary : jsstring;
  improvement_suggestions : list jsstring;
  keywords_to_add : list jsstring;
  final_recommendation : jsstring
}.

(** The [ScoringResult] fields that [handleAnalyze] fills in.  [total_score]
    is always [Math.round] of a finite score, an integer. *)
Record ScoringResult : Type := {
  resume_id : jsstring;
  filename : jsstring;
  total_score : Z;
  sr_skill_match_score : Q;
  sr_experience_score : Q;
  education_score : Q;
  similarity_score : Q;
  is_shortlisted : bool;
  sr_matched_skills : list jsstring;
  sr_missing_skills : list jsstring;
  candidate_email : option jsstring;
  suggestions : list jsstring;
  atsResult : option ATSResult
}.

(** An uploaded [File]: its name, its size and what [file.text()] gives
    ([None] when the read is rejected). *)
Record File : Type := {
  name : jsstring;
  size : N;
  text : option jsstring
}.

(* ------------------------------------------------------------------------- *)
(** ** The world of an asynchronous handler *)
(* ------------------------------------------------------------------------- *)

(** A thrown value.  Everything thrown in these sources is an [Error]; the
    class tells [TypeError] and [SyntaxError] from the base class. *)
Inductive ErrorClass : Type := BaseError | TypeErrorClass | SyntaxErrorClass.

Record Exn : Type := { class : ErrorClass; message : jsstring }.

(** [new Error(msg)]. *)
Definition Error (msg : jsstring) : Exn := {| class := BaseError; message := msg |}.

(** What [fetch] rejects with when the server cannot be reached. *)
Definition FailedToFetch : Exn :=
  {| class := TypeErrorClass; message := lit "Failed to fetch" |}.

Inductive FormValue : Type :=
| FormFile (f : File)
| FormText (s : jsstring).

Record Request : Type := {
  url : jsstring;
  method : jsstring;
  body : list (jsstring * FormValue);
  headers : list (jsstring * jsstring)
}.

(** The JSON body of a response that is not OK: not JSON at all, the value
    [null], or a value whose [detail] is a string or is missing. *)
Inductive ErrorBody : Type :=
| NotJson
| JsonNull
| Detail (detail : option jsstring).

(** A response.  The body of an OK response is read at its declared type:
    [response.json()] gives an [ATSResult] or rejects. *)
Inductive Response : Type :=
| Ok (json : Exn + ATSResult)
| NotOk (status : N) (json : ErrorBody).

Inductive FetchOutcome : Type :=
| Rejected (e : Exn)
| Responded (r : Response).

Inductive ConsoleError : Type :=
| FailedToEvaluate (file_name : jsstring) (e : Exn)
| BatchEvaluationError (e : Exn).

Inductive Toast : Type :=
| toast_error (msg : jsstring)
| toast_success (msg : jsstring)
| toast_loading (msg : jsstring)
| toast_dismiss.

(** [navigate("/results", { replace: true, state })]. *)
Record Navigation : Type := {
  nav_atsResult : ATSResult;
  nav_timestamp : N;
  nav_uploadId : jsstring
}.

(** The world: the clock and the random source (the k-th read of each), the
    requests sent so far (newest first), the console, the toasts and the
    navigations (newest first). *)
Record World : Type := {
  clock : nat -> N;
  entropy : nat -> jsstring;
  clock_reads : nat;
  entropy_reads : nat;
  sent : list Request;
  console : list ConsoleError;
  toasts : list Toast;
  navigations : list Navigation
}.

Definition tick_clock (w : World) : World :=
  {| clock := clock w; entropy := entropy w;
     clock_reads := S (clock_reads w); entropy_reads := entropy_reads w;
     sent := sent w; console := console w; toasts := toasts w;
     navigations := navigations w |}.

Definition tick_entropy (w : World) : World :=
  {| clock := clock w; entropy := entropy w;
     clock_reads := clock_reads w; entropy_reads := S (entropy_reads w);
     sent := sent w; console := console w; toasts := toasts w;
     navigations := navigations w |}.

Definition record_request (r : Request) (w : World) : World :=
  {| clock := clock w; entropy := entropy w;
     clock_reads := clock_reads w; entropy_reads := entropy_reads w;
     sent := r :: sent w; console := console w; toasts := toasts w;
     navigations := navigations w |}.

Definition record_console (c : ConsoleError) (w : World) : World :=
  {| clock := clock w; entropy := entropy w;
     clock_reads := clock_reads w; entropy_reads := entropy_reads w;
     sent := sent w; console := c :: console w; toasts := toasts w;
     navigations := navigations w |}.

Definition record_toast (t : Toast) (w : World) : World :=
  {| clock := clock w; entropy := entropy w;
     clock_reads := clock_reads w; entropy_reads := entropy_reads w;
     sent := sent w; console := console w; toasts := t :: toasts w;
     navigations := navigations w |}.

Definition record_navigation (n : Navigation) (w : World) : World :=
  {| clock := clock w; entropy := entropy w;
     clock_reads := clock_reads w; entropy_reads := entropy_reads w;
     sent := sent w; console := console w; toasts := toasts w;
     navigations := n :: navigations w |}.

(** An asynchronous computation: it settles with a thrown value or a result,
    and leaves a world. *)
Definition M (A : Type) : Type := World -> (Exn + A) * World.

Definition ret {A} (a : A) : M A := fun w => (inr a, w).

Definition throw {A} (e : Exn) : M A := fun w => (inl e, w).

Definition bind {A B} (m : M A) (k : A -> M B) : M B :=
  fun w =>
    match m w with
    | (inr a, w') => k a w'
    | (inl e, w') => (inl e, w')
    end.

(** [try { m } catch (error) { handler error }]. *)
Definition try_catch {A} (m : M A) (handler : Exn -> M A) : M A :=
  fun w =>
    match m w with
    | (inr a, w') => (inr a, w')
    | (inl e, w') => handler e w'
    end.

Declare Scope js_scope.
Delimit Scope js_scope with js.
Notation "x <- m ;; k" := (bind m (fun x => k))
  (at level 61, m at next level, right associativity) : js_scope.
Notation "m ;; k" := (bind m (fun _ => k))
  (at level 61, right associativity) : js_scope.
Open Scope js_scope.

(** [Date.now()]. *)
Definition Date_now : M N :=
  fun w => (inr (clock w (clock_reads w)), tick_clock w).

(** [Math.random().toString(36).substring(7)]. *)
Definition Math_random_id : M jsstring :=
  fun w => (inr (entropy w (entropy_reads w)), tick_entropy w).

Definition console_error (c : ConsoleError) : M unit :=
  fun w => (inr tt, record_console c w).

Definition toast (t : Toast) : M unit :=
  fun w => (inr tt, record_toast t w).

Definition navigate (n : Navigation) : M unit :=
  fun w => (inr tt, record_navigation n w).

(** The value a computation settles with, and the world it leaves. *)
Definition settled {A} (m : M A) (w : World) : Exn + A := fst (m w).
Definition world_after {A} (m : M A) (w : World) : World := snd (m w).

(* ------------------------------------------------------------------------- *)
(** ** lib/api.ts: the ATS client *)
(* ------------------------------------------------------------------------- *)

Section Client.

(** The server behind [fetch]: what it answers to a request, given the
    requests it has received before. *)
Variable server : list Request -> Request -> FetchOutcome.

(** [import.meta.env.VITE_API_BASE_URL]. *)
Variable VITE_API_BASE_URL : option jsstring.

Definition API_BASE_URL : jsstring :=
  str_or VITE_API_BASE_URL (lit "http://localhost:8000").

(** [await fetch(url, init)]. *)
Definition fetch (r : Request) : M Response :=
  fun w =>
    match server (sent w) r with
    | Rejected e => (inl e, record_request r w)
    | Responded resp => (inr resp, record_request r w)
    end.

Definition evaluate_request (file : File) (jobDescription : jsstring)
    (timestamp : N) (requestId : jsstring) : Request :=
  {| url := API_BASE_URL ++ lit "/api/ats/evaluate-resume";
     method := lit "POST";
     body := [ (lit "file", FormFile file);
               (lit "job_description", FormText jobDescription) ];
     headers := [ (lit "Accept", lit "application/json");
                  (lit "Cache-Control", lit "no-cache, no-store, must-revalidate");
                  (lit "Pragma", lit "no-cache");
                  (lit "Expires", lit "0");
                  (lit "X-Timestamp", decimal timestamp);
                  (lit "X-Request-Id", requestId) ] |}.

(** [error.detail || `HTTP error! status: ${response.status}`]. *)
Definition http_error_message (status : N) (detail : option jsstring) : jsstring :=
  str_or detail (lit "HTTP error! status: " ++ decimal status).

(** What the [if (!response.ok)] block throws.  [error] is
    [await response.json().catch(() => ({}))]: the empty object for a body
    that is not JSON.  Reading [detail] of [null] throws a TypeError (with
    the engine's wording). *)
Definition not_ok_error (status : N) (json : ErrorBody) : Exn :=
  match json with
  | NotJson => Error (http_error_message status None)
  | JsonNull =>
      {| class := TypeErrorClass;
         message := lit "Cannot read properties of null (reading 'detail')" |}
  | Detail detail => Error (http_error_message status detail)
  end.

Definition unreachable_message : jsstring :=
  lit "Unable to connect to server. Please ensure the backend is running on "
    ++ API_BASE_URL ++ lit ".".

(** [error instanceof TypeError && error.message === 'Failed to fetch']. *)
Definition isFailedToFetch (error : Exn) : bool :=
  match class error with
  | TypeErrorClass => str_eqb (message error) (lit "Failed to fetch")
  | _ => false
  end.

(** The [catch (error)] block of [evaluateResumeWithATS]. *)
Definition rethrow_fetch_error {A} (error : Exn) : M A :=
  if isFailedToFetch error then throw (Error unreachable_message)
  else throw error.

(** [async evaluateResumeWithATS(file, jobDescription)].  The promise of
    [response.json()] is returned from the [try] block without being
    awaited, so its rejection is not seen by the [catch]. *)
Definition evaluateResumeWithATS (file : File) (jobDescription : jsstring)
    : M ATSResult :=
  json <- try_catch
            (timestamp <- Date_now ;;
             requestId <- Math_random_id ;;
             response <- fetch (evaluate_request file jobDescription
                                                 timestamp requestId) ;;
             match response with
             | NotOk status error => throw (not_ok_error status error)
             | Ok json => ret json
             end)
            rethrow_fetch_error ;;
  match json with
  | inl e => throw e
  | inr result => ret result
  end.

(** The [for (const file of files)] loop of [evaluateBatchWithATS]. *)
Fixpoint evaluate_each (files : list File) (jobDescription : jsstring)
    (results : list ATSResult) : M (list ATSResult) :=
  match files with
  | [] => ret results
  | file :: rest =>
      results' <- try_catch
                    (result <- evaluateResumeWithATS file jobDescription ;;
                     ret (results ++ [result]))
                    (fun error =>
                       console_error (FailedToEvaluate (name file) error) ;;
                       (* Continue with other files even if one fails *)
                       ret results) ;;
      evaluate_each rest jobDescription results'
  end.

(** [async evaluateBatchWithATS(files, jobDescription)]. *)
Definition evaluateBatchWithATS (files : list File) (jobDescription : jsstring)
    : M (list ATSResult) :=
  try_catch
    (evaluate_each files jobDescription [])
    (fun error => console_error (BatchEvaluationError error) ;; throw error).

(** The request [evaluateResumeWithATS] sends from a world: its two
    ambient headers are the next readings of the clock and of the random
    source. *)
Definition next_request (file : File) (jobDescription : jsstring) (w : World)
    : Request :=
  evaluate_request file jobDescription
    (clock w (clock_reads w)) (entropy w (entropy_reads w)).

(** What [evaluateResumeWithATS] settles with, by the outcome of its
    [fetch]. *)
Definition settle_fetch (o : FetchOutcome) : Exn + ATSResult :=
  match o with
  | Rejected error =>
      inl (if isFailedToFetch error then Error unreachable_message else error)
  | Responded (NotOk status error) => inl (not_ok_error status error)
  | Responded (Ok json) => json
  end.

(** The world after one turn of the batch loop on [file]. *)
Definition after_turn (file : File) (jobDescription : jsstring) (w : World)
    : World :=
  let (r, w') := evaluateResumeWithATS file jobDescription w in
  match r with
  | inl error => record_console (FailedToEvaluate (name file) error) w'
  | inr _ => w'
  end.

(** The single evaluation applied to each file in turn: every file with
    what [evaluateResumeWithATS] settles with for it. *)
Fixpoint evaluations (files : list File) (jobDescription : jsstring) (w : World)
    : list (File * (Exn + ATSResult)) :=
  match files with
  | [] => []
  | file :: rest =>
      (file, settled (evaluateResumeWithATS file jobDescription) w)
        :: evaluations rest jobDescription (after_turn file jobDescription w)
  end.

(** The world after the loop has gone through [files]. *)
Fixpoint after_turns (files : list File) (jobDescription : jsstring) (w : World)
    : World :=
  match files with
  | [] => w
  | file :: rest =>
      after_turns rest jobDescription (after_turn file jobDescription w)
  end.

End Client.

(** The external call failed: the server was not reached, the response is
    not OK, or its body cannot be read. *)
Definition call_failed (o : FetchOutcome) : bool :=
  match o with
  | Rejected _ | Responded (NotOk _ _) | Responded (Ok (inl _)) => true
  | Responded (Ok (inr _)) => false
  end.

(** The results among a list of settled evaluations, in order. *)
Fixpoint successes (l : list (File * (Exn + ATSResult))) : list ATSResult :=
  match l with
  | [] => []
  | (_, inr r) :: rest => r :: successes rest
  | (_, inl _) :: rest => successes rest
  end.

(** The console lines of the failed ones, in order. *)
Fixpoint failures (l : list (File * (Exn + ATSResult))) : list ConsoleError :=
  match l with
  | [] => []
  | (f, inl e) :: rest => FailedToEvaluate (name f) e :: failures rest
  | (_, inr _) :: rest => failures rest
  end.

(* ------------------------------------------------------------------------- *)
(** ** pages/Index: the candidate's screening request *)
(* ------------------------------------------------------------------------- *)

(** [toLowerCase], on the letters A..Z.  The searches below look for words
    made of letters a..z other than i and k, and only an ASCII capital lowers
    to one of those, so the remaining case mappings cannot change the result
    of [includes]. *)
Definition lower (c : N) : N :=
  if ((65 <=? c) && (c <=? 90))%N then (c + 32)%N else c.

Definition toLowerCase (s : jsstring) : jsstring := map lower s.

Fixpoint startsWith (s needle : jsstring) : bool :=
  match needle, s with
  | [], _ => true
  | _ :: _, [] => false
  | n :: needle', c :: s' => (n =? c)%N && startsWith s' needle'
  end.

Fixpoint includes (s needle : jsstring) : bool :=
  startsWith s needle ||
  match s with
  | [] => false
  | _ :: s' => includes s' needle
  end.

Record IndexState : Type := {
  resumeFile : option File;
  jobDescFile : option File;
  jobDescText : jsstring;
  isAnalyzing : bool
}.

Definition isSome {A} (o : option A) : bool :=
  match o with Some _ => true | None => false end.

(** [jobDescText.trim().length > 0 || jobDescFile], as a truth value. *)
Definition hasJobDescription (st : IndexState) : bool :=
  (0 <? List.length (trim (jobDescText st)))%nat || isSome (jobDescFile st).

(** The text that [handleScreening] binds to [finalJobDescription], or the
    error thrown while reading the file. *)
Definition finalJobDescription (st : IndexState) : Exn + jsstring :=
  let final := trim (jobDescText st) in
  match nonempty final, jobDescFile st with
  | false, Some file =>
      match text file with
      | Some content => inr content
      | None => inl (Error (lit "Failed to read job description file"))
      end
  | _, _ => inr final
  end.

Definition too_short_message : jsstring :=
  lit "Job description must be at least 50 characters long".

Definition isDummyData (atsResult : ATSResult) : bool :=
  includes (toLowerCase (professional_summary atsResult)) (lit "dummy")
  || includes (toLowerCase (professional_summary atsResult)) (lit "sample")
  || includes (toLowerCase (professional_summary atsResult)) (lit "placeholder")
  || includes (toLowerCase (candidate_summary (candidate_profile atsResult)))
              (lit "dummy").

Definition lift {A} (r : Exn + A) : M A :=
  match r with
  | inl e => throw e
  | inr a => ret a
  end.

Section Index.

Variable server : list Request -> Request -> FetchOutcome.
Variable VITE_API_BASE_URL : option jsstring.

(** The [try] block of [handleScreening], for a present resume file; its
    result is the form state after a successful navigation. *)
Definition screening_attempt (resume : File) (st : IndexState) : M IndexState :=
  final <- lift (finalJobDescription st) ;;
  if (List.length final <? 50)%nat
  then throw (Error too_short_message)
  else
    atsResult <- evaluateResumeWithATS server VITE_API_BASE_URL resume final ;;
    (if isDummyData atsResult
     then toast (toast_error
            (lit "Warning: Dummy data detected. Backend may not be processing correctly."))
     else ret tt) ;;
    timestamp <- Date_now ;;
    uploadId <- Math_random_id ;;
    navigate {| nav_atsResult := atsResult;
                nav_timestamp := timestamp;
                nav_uploadId := uploadId |} ;;
    ret {| resumeFile := None; jobDescFile := None; jobDescText := [];
           isAnalyzing := true |}.

Definition setIsAnalyzing (b : bool) (st : IndexState) : IndexState :=
  {| resumeFile := resumeFile st; jobDescFile := jobDescFile st;
     jobDescText := jobDescText st; isAnalyzing := b |}.

(** [const handleScreening = async () => { ... }]: the state it leaves and
    the world.  It never throws: the [catch] turns every error into a toast. *)
Definition handleScreening (st : IndexState) (w : World) : IndexState * World :=
  match resumeFile st, hasJobDescription st with
  | Some resume, true =>
      match screening_attempt resume (setIsAnalyzing true st) w with
      | (inr st', w') => (setIsAnalyzing false st', w')
      | (inl error, w') =>
          (setIsAnalyzing false st, record_toast (toast_error (message error)) w')
      end
  | _, _ =>
      (st, record_toast (toast_error (lit
         "Please upload a resume and provide a job description (either as text or file)."))
         w)
  end.

End Index.

(* ------------------------------------------------------------------------- *)
(** ** Array.prototype.sort *)
(* ------------------------------------------------------------------------- *)

Section ArraySort.

Variable A : Type.
Variable comparefn : A -> A -> number.

(** SortCompare: a NaN from the comparator counts as +0. *)
Definition SortCompare (x y : A) : number :=
  match comparefn x y with
  | NaN => of_Z 0
  | v => v
  end.

(** [x], which stood before every element of the sorted [l], moves behind
    [y] only when SortCompare(x, y) > 0. *)
Fixpoint insert_sorted (x : A) (l : list A) : list A :=
  match l with
  | [] => [x]
  | y :: rest =>
      if positive (SortCompare x y) then y :: insert_sorted x rest
      else x :: l
  end.

(** The sort is stable (ECMAScript 2019), and for a consistent comparator the
    sorted order is unique: every conforming engine returns this list. *)
Fixpoint Array_sort (l : list A) : list A :=
  match l with
  | [] => []
  | x :: rest => insert_sorted x (Array_sort rest)
  end.

End ArraySort.

(** [a] may stand before [b] in a list ordered by [key], larger keys first. *)
Definition descending {A} (key : A -> Z) (a b : A) : Prop := (key b <= key a)%Z.

(* ------------------------------------------------------------------------- *)
(** ** pages/hr/Dashboard.tsx: the recruiter's ranking *)
(* ------------------------------------------------------------------------- *)

(** `${resumes[currentIndex]?.name}`: a missing entry prints "undefined". *)
Definition name_at (resumes : list File) (currentIndex : nat) : option jsstring :=
  option_map name (nth_error resumes currentIndex).

Definition print_optional (s : option jsstring) : jsstring :=
  match s with Some t => t | None => lit "undefined" end.

(** The body of the conversion loop of [handleAnalyze].  [currentIndex] is
    [atsResults.indexOf(atsResult)]: every result is a freshly decoded object,
    so it is the position of [atsResult] in the batch's results. *)
Definition toScoringResult (resumes : list File) (currentIndex : nat)
    (r : ATSResult) : ScoringResult :=
  let contact := contact_information (candidate_profile r) in
  {| resume_id :=
       str_or (get contact (lit "email"))
              (lit "resume_" ++ decimal (N.of_nat currentIndex) ++ lit "_"
                 ++ print_optional (name_at resumes currentIndex));
     filename :=
       str_or (name_at resumes currentIndex)
              (str_or (get contact (lit "filename")) (lit "Unknown"));
     total_score := round_half_up (ats_score r);
     sr_skill_match_score := skill_match_score (score_breakdown r);
     sr_experience_score := experience_score (score_breakdown r);
     education_score := education_match_score (score_breakdown r);
     similarity_score := keyword_match_score (score_breakdown r);
     is_shortlisted := str_eqb (status r) (lit "SHORTLISTED");
     sr_matched_skills := matched_skills (score_breakdown r);
     sr_missing_skills := missing_skills (score_breakdown r);
     candidate_email := get contact (lit "email");
     suggestions := improvement_suggestions r;
     atsResult := Some r |}.

Fixpoint convert_from (resumes : list File) (currentIndex : nat)
    (atsResults : list ATSResult) : list ScoringResult :=
  match atsResults with
  | [] => []
  | r :: rest =>
      toScoringResult resumes currentIndex r
        :: convert_from resumes (S currentIndex) rest
  end.

(** [(a, b) => b.total_score - a.total_score]. *)
Definition by_total_score (a b : ScoringResult) : number :=
  sub (of_Z (total_score b)) (of_Z (total_score a)).

(** [analysisResults] after the conversion loop and
    [analysisResults.sort((a, b) => b.total_score - a.total_score)]. *)
Definition analysisResults (resumes : list File) (atsResults : list ATSResult)
    : list ScoringResult :=
  Array_sort by_total_score (convert_from resumes 0 atsResults).

(** [(a, b) => b.score - a.score]: a [ScoringResult] has no [score], both
    reads give [undefined] and the difference is NaN. *)
Definition by_score (a b : ScoringResult) : number := sub NaN NaN.

(** [const sortedResults = [...results].sort((a, b) => b.score - a.score)]:
    the list the page renders. *)
Definition sortedResults (results : list ScoringResult) : list ScoringResult :=
  Array_sort by_score results.

Record DashboardState : Type := {
  extractedJobDescription : jsstring;
  resumes : list File;
  results : list ScoringResult;
  loading : bool
}.

Definition finish_analysis (results' : list ScoringResult) (st : DashboardState)
    : DashboardState :=
  {| extractedJobDescription := extractedJobDescription st;
     resumes := resumes st; results := results'; loading := false |}.

Section Dashboard.

Variable server : list Request -> Request -> FetchOutcome.
Variable VITE_API_BASE_URL : option jsstring.

(** The [try] block of [handleAnalyze]: the value handed to [setResults]. *)
Definition analysis_attempt (st : DashboardState) : M (list ScoringResult) :=
  toast (toast_loading (lit "Analyzing " ++ decimal (N.of_nat (List.length (resumes st)))
                          ++ lit " resumes with ATS evaluation...")) ;;
  atsResults <- evaluateBatchWithATS server VITE_API_BASE_URL
                  (resumes st) (extractedJobDescription st) ;;
  let ranked := analysisResults (resumes st) atsResults in
  toast (toast_success (lit "Successfully analyzed "
                          ++ decimal (N.of_nat (List.length ranked))
                          ++ lit " resumes with professional ATS evaluation!")) ;;
  ret ranked.

(** [const handleAnalyze = async () => { ... }]. *)
Definition handleAnalyze (st : DashboardState) (w : World) : DashboardState * World :=
  if negb (nonempty (extractedJobDescription st)) then
    (st, record_toast (toast_error (lit "Please upload a job description file first")) w)
  else if (List.length (resumes st) =? 0)%nat then
    (st, record_toast (toast_error (lit "Please upload at least one resume")) w)
  else
    match analysis_attempt st w with
    | (inr ranked, w') => (finish_analysis ranked st, record_toast toast_dismiss w')
    | (inl error, w') =>
        (finish_analysis (results st) st,
         record_toast toast_dismiss (record_toast (toast_error (message error)) w'))
    end.

End Dashboard.

(** [sortedResults.filter(r => r.total_score >= 70).length], the number the
    header announces as "shortlisted out of N candidates". *)
Definition shortlisted_count (sorted : list ScoringResult) : nat :=
  List.length (filter (fun r => (70 <=? total_score r)%Z) sorted).

(** [const isShortlisted = result.is_shortlisted || result.total_score >= 80]. *)
Definition isShortlisted (result : ScoringResult) : bool :=
  is_shortlisted result || (80 <=? total_score result)%Z.

(** [const isGoodCandidate = result.total_score >= 60]. *)
Definition isGoodCandidate (result : ScoringResult) : bool :=
  (60 <=? total_score result)%Z.

(** [result.atsResult?.status || (isShortlisted ? 'SHORTLISTED' : 'UNDER REVIEW')]. *)
Definition status_label (result : ScoringResult) : jsstring :=
  str_or (option_map status (atsResult result))
         (if isShortlisted result then lit "SHORTLISTED" else lit "UNDER REVIEW").

(* ------------------------------------------------------------------------- *)
(** ** The ATS evaluation page and pages/Results.tsx: colours and rows *)
(* ------------------------------------------------------------------------- *)

Definition BORDERLINE_NEEDS_IMPROVEMENT : jsstring :=
  lit "BORDERLINE " ++ [8211%N] ++ lit " NEEDS IMPROVEMENT".

(** [getStatusBadgeVariant]. *)
Definition getStatusBadgeVariant (status : jsstring) : jsstring :=
  if str_eqb status (lit "SHORTLISTED") then lit "default"
  else if str_eqb status BORDERLINE_NEEDS_IMPROVEMENT then lit "secondary"
  else lit "destructive".

(** [getScoreColor]. *)
Definition getScoreColor (score : Q) : jsstring :=
  if geq score 80 then lit "text-green-600"
  else if geq score 50 then lit "text-yellow-600"
  else lit "text-red-600".

(** A row of a score breakdown: label, score, weight. *)
Record Row : Type := { label : jsstring; score : number; weight : jsstring }.

(** The score of the row with the given label. *)
Definition row_score (lbl : jsstring) (rows : list Row) : option number :=
  option_map score (find (fun r => str_eqb (label r) lbl) rows).

Definition Keywords_and_Tools : jsstring := lit "Keywords & Tools".

(** [(keyword_match_score + tech_stack_match_score) / 2] as both pages
    compute it: a sum of two doubles, then a division, each rounded to the
    nearest double. *)
Definition keywords_tools_mean (b : ATSScoreBreakdown) : number :=
  half (add (Num (keyword_match_score b)) (Num (tech_stack_match_score b))).

(** pages/Results.tsx, "ATS Score Breakdown". *)
Definition Results_rows (scoreBreakdown : ATSScoreBreakdown) : list Row :=
  [ {| label := lit "Skills Match";
       score := Num (skill_match_score scoreBreakdown); weight := lit "40%" |};
    {| label := lit "Experience Match";
       score := Num (experience_score scoreBreakdown); weight := lit "25%" |};
    {| label := lit "Role Fit";
       score := Num (role_fit_score scoreBreakdown); weight := lit "15%" |};
    {| label := lit "Education Match";
       score := Num (education_match_score scoreBreakdown); weight := lit "10%" |};
    {| label := lit "Certifications";
       score := Num (certifications_score scoreBreakdown); weight := lit "5%" |};
    {| label := lit "Keywords & Tools";
       score := Math_round (keywords_tools_mean scoreBreakdown);
       weight := lit "5%" |} ].


(** pages/Results.tsx, the effect that monitors score changes, run with the
    stored [lastScore] on a result with the given score and upload id: whether
    it schedules [window.location.reload()], and the [lastScore] it stores. *)
Definition monitor_score (lastScore : option Q) (ats : Q) (uploadId : jsstring)
    : bool * option Q :=
  let present := truthy (Num ats) in
  (present
   && match lastScore with
      | Some last => Qeq_bool last ats && nonempty uploadId
      | None => false
      end,
   if present then Some ats else lastScore).

(** The ATS evaluation page, "Score Breakdown": the same six rows, the last
    one without [Math.round]. *)
Definition ATSEvaluationPage_rows (b : ATSScoreBreakdown) : list Row :=
  [ {| label := lit "Skills Match";
       score := Num (skill_match_score b); weight := lit "40%" |};
    {| label := lit "Experience Match";
       score := Num (experience_score b); weight := lit "25%" |};
    {| label := lit "Role Fit";
       score := Num (role_fit_score b); weight := lit "15%" |};
    {| label := lit "Education Match";
       score := Num (education_match_score b); weight := lit "10%" |};
    {| label := lit "Certifications";
       score := Num (certifications_score b); weight := lit "5%" |};
    {| label := lit "Keywords & Tools";
       score := keywords_tools_mean b;
       weight := lit "5%" |} ].

(** [x.toFixed(1)] for a finite [x] below 10^21 in magnitude, as the number
    of tenths printed: the closest one to the magnitude, the larger on a tie,
    under the sign of [x]. *)
Definition toFixed1 (x : Q) : Z :=
  if Qle_bool 0 x then round_half_up (x * 10)
  else (- round_half_up (- x * 10))%Z.

(** [{item.score.toFixed(1)}%], the tenths an ATS evaluation row prints;
    [None] stands for the other forms ("NaN", "Infinity", and the exponent
    form from 10^21 on). *)
Definition ATSEvaluationPage_row_text (item : Row) : option Z :=
  match score item with
  | Num q => if Qle_bool (inject_Z (10 ^ 21)) (Qabs q) then None else Some (toFixed1 q)
  | _ => None
  end.

(* ------------------------------------------------------------------------- *)
(** ** The Scoring Aggregator *)
(* ------------------------------------------------------------------------- *)

(** Modelled from the spec: the Scoring Aggregator runs in the backend, whose
    code is not part of the front-end sources; the definitions of this section
    follow section 4.1, steps 6 to 8, and the invariant of section 3. *)
Definition keywords_tools_score (b : ATSScoreBreakdown) : Q :=
  (keyword_match_score b + tech_stack_match_score b) / 2.

(** Modelled from the spec: the six sub-scores of section 3, in the order of
    the weight table (backend code, absent from the sources). *)
Definition sub_scores (b : ATSScoreBreakdown) : list Q :=
  [ skill_match_score b; experience_score b; role_fit_score b;
    education_match_score b; certifications_score b; keywords_tools_score b ].

(** Modelled from the spec: the fixed weights 0.40/0.25/0.15/0.10/0.05/0.05
    (backend code, absent from the sources). *)
Definition weights : list Q :=
  [ 40 # 100; 25 # 100; 15 # 100; 10 # 100; 5 # 100; 5 # 100 ].

(** A weight as the rows of the front end print it: "40%" for 0.40. *)
Definition weight_text (w : Q) : jsstring :=
  decimal (Z.to_N (Qfloor (w * 100))) ++ lit "%".

Fixpoint dot (ws xs : list Q) : Q :=
  match ws, xs with
  | w :: ws', x :: xs' => w * x + dot ws' xs'
  | _, _ => 0
  end.

(** Modelled from the spec: step 7, the sum of sub-score times weight (backend
    code, absent from the sources). *)
Definition weighted_sum (b : ATSScoreBreakdown) : Q := dot weights (sub_scores b).

Definition clamp (lo hi x : Q) : Q :=
  if Qle_bool x lo then lo else if Qle_bool hi x then hi else x.

(** The two roundings the invariant allows. *)
Inductive Rounding : Type := NearestInteger | OneDecimal.

Definition round_to (r : Rounding) (x : Q) : Q :=
  match r with
  | NearestInteger => inject_Z (round_half_up x)
  | OneDecimal => inject_Z (round_half_up (x * 10)) / 10
  end.

Definition tolerance (r : Rounding) : Q :=
  match r with
  | NearestInteger => 1 # 2
  | OneDecimal => 1 # 20
  end.

(** Modelled from the spec: the final score, the weighted sum clamped to
    [0,100] and rounded (backend code, absent from the sources). *)
Definition final_score (r : Rounding) (b : ATSScoreBreakdown) : Q :=
  round_to r (clamp 0 100 (weighted_sum b)).

Inductive Status : Type := SHORTLISTED | BORDERLINE | NOT_SHORTLISTED.

(** Modelled from the spec: step 8, the status bands (backend code, absent
    from the sources). *)
Definition status_of (final : Q) : Status :=
  if geq final 80 then SHORTLISTED
  else if geq final 50 then BORDERLINE
  else NOT_SHORTLISTED.

(** The status texts the front end compares with. *)
Definition status_text (s : Status) : jsstring :=
  match s with
  | SHORTLISTED => lit "SHORTLISTED"
  | BORDERLINE => BORDERLINE_NEEDS_IMPROVEMENT
  | NOT_SHORTLISTED => lit "NOT SHORTLISTED"
  end.

(** Every sub-score of a breakdown lies in [0,100] (section 3). *)
Definition sub_scores_in_range (b : ATSScoreBreakdown) : Prop :=
  Forall (fun s => 0 <= s <= 100) (sub_scores b).

(* ------------------------------------------------------------------------- *)
(** ** Sample data for the concrete runs *)
(* ------------------------------------------------------------------------- *)

Definition sample_profile (contact : strmap) : ATSCandidateProfile :=
  {| candidate_summary := lit "Frontend engineer";
     total_experience := 3; relevant_experience := 3;
     technical_skills := [lit "React"; lit "JavaScript"];
     soft_skills := []; tools_technologies := []; certifications := [];
     education_details := []; job_titles := []; projects_responsibilities := [];
     achievements_awards := []; domain_experience := [];
     contact_information := contact;
     resume_keywords := []; seniority_level := lit "Mid" |}.

Definition sample_job : ATSJobProfile :=
  {| mandatory_skills := [lit "React"; lit "TypeScript"];
     good_to_have_skills := []; required_experience := 2;
     required_tools_technologies := []; role_responsibilities := [];
     education_requirements := []; preferred_certifications := [];
     required_industry_domain := []; relevant_keywords := [] |}.

(** A breakdown with the given keyword and tool scores and one score for
    the five others. *)
Definition breakdown_with (others keyword tools : Q) : ATSScoreBreakdown :=
  {| skill_match_score := others; experience_score := others;
     keyword_match_score := keyword; education_match_score := others;
     certifications_score := others; role_fit_score := others;
     tech_stack_match_score := tools;
     matched_skills := [lit "React"]; missing_skills := [lit "TypeScript"];
     matched_tools := []; missing_tools := [];
     matched_keywords := []; missing_keywords := [];
     matched_certifications := []; missing_certifications := [] |}.

Definition sample_breakdown : Q -> Q -> ATSScoreBreakdown := breakdown_with 80.

(** A result with the given score and status text for the given e-mail. *)
Definition sample_result (score : Q) (status_txt email : jsstring) : ATSResult :=
  {| ats_score := score; status := status_txt;
     score_breakdown := sample_breakdown 50 51;
     candidate_profile := sample_profile [(lit "email", email)];
     job_profile := sample_job;
     professional_summary := lit "Solid match";
     improvement_suggestions := [];
     keywords_to_add := [];
     final_recommendation := lit "Interview" |}.

Definition sample_file (file_name : jsstring) : File :=
  {| name := file_name; size := 1024; text := Some file_name |}.

(** A server that fails on the file named "bad.pdf" with a 500 and answers
    every other evaluation with a score of 75. *)
Definition sample_server (history : list Request) (r : Request) : FetchOutcome :=
  match body r with
  | (_, FormFile f) :: _ =>
      if str_eqb (name f) (lit "bad.pdf")
      then Responded (NotOk 500 (Detail (Some (lit "Could not extract text"))))
      else Responded (Ok (inr (sample_result 75 BORDERLINE_NEEDS_IMPROVEMENT (name f))))
  | _ => Responded (NotOk 422 NotJson)
  end.

(** A server that cannot read "bad.pdf" (500), gives "c.pdf" 91 with the
    status SHORTLISTED and every other resume 62. *)
Definition grading_server (history : list Request) (r : Request) : FetchOutcome :=
  match body r with
  | (_, FormFile f) :: _ =>
      if str_eqb (name f) (lit "bad.pdf")
      then Responded (NotOk 500 (Detail (Some (lit "Could not extract text"))))
      else if str_eqb (name f) (lit "c.pdf")
      then Responded (Ok (inr (sample_result 91 (lit "SHORTLISTED")
                                 (lit "carol@example.com"))))
      else Responded (Ok (inr (sample_result 62 BORDERLINE_NEEDS_IMPROVEMENT
                                 (lit "alice@example.com"))))
  | _ => Responded (NotOk 422 NotJson)
  end.

Definition sample_world : World :=
  {| clock := fun k => (1700000000000 + N.of_nat k)%N;
     entropy := fun k => decimal (N.of_nat k);
     clock_reads := 0; entropy_reads := 0;
     sent := []; console := []; toasts := []; navigations := [] |}.

(** The same surroundings at a later time, with other request ids and one
    request already sent. *)
Definition later_world : World :=
  {| clock := fun k => (1800000000000 + 7 * N.of_nat k)%N;
     entropy := fun k => lit "x" ++ decimal (N.of_nat k);
     clock_reads := 5; entropy_reads := 9;
     sent := [evaluate_request None (sample_file (lit "old.pdf")) (lit "old") 1 (lit "id")];
     console := []; toasts := []; navigations := [] |}.

(** Two screening requests for the resume "cv.pdf": one with a job
    description of 15 code units once trimmed, one with 68. *)
Definition short_request : IndexState :=
  {| resumeFile := Some (sample_file (lit "cv.pdf")); jobDescFile := None;
     jobDescText := lit "  React developer  "; isAnalyzing := false |}.

Definition long_description : jsstring :=
  lit "We are looking for a React developer with three years of experience.".

Definition long_request : IndexState :=
  {| resumeFile := Some (sample_file (lit "cv.pdf")); jobDescFile := None;
     jobDescText := long_description; isAnalyzing := false |}.

(** A dashboard with a job description and three resumes to analyse. *)
Definition sample_dashboard : DashboardState :=
  {| extractedJobDescription := long_description;
     resumes := [sample_file (lit "a.pdf"); sample_file (lit "bad.pdf");
                 sample_file (lit "c.pdf")];
     results := []; loading := false |}.

(* ------------------------------------------------------------------------- *)
(** ** lib/api.ts: the generic request *)
(* ------------------------------------------------------------------------- *)

(** The [RequestInit] fields this client uses; [None] is an absent key. *)
Record RequestInit : Type := {
  init_method : option jsstring;
  init_body : option jsstring;
  init_headers : option strmap
}.

(** [{ ...a, ...b }] on string maps: under [get] the entries of [b] win. *)
Definition spread (a b : strmap) : strmap := b ++ a.

(** The second argument of [fetch] in [request]:
    [{ headers: { 'Content-Type': 'application/json', ...options.headers },
       ...options }].  A [headers] key of [options] replaces the merged one. *)
Definition fetch_init (options : RequestInit) : RequestInit :=
  let merged :=
    spread [(lit "Content-Type", lit "application/json")]
           (match init_headers options with Some h => h | None => [] end) in
  {| init_method := init_method options;
     init_body := init_body options;
     init_headers := match init_headers options with
                     | Some h => Some h
                     | None => Some merged
                     end |}.

(** What [request] sees of [errorData.detail]: whether it is truthy and, when
    it is, the message [new Error(errorMessage)] makes of it by [String]: the
    detail itself when it is a string, "" for [[]], "true" for [true],
    "[object Object]" for an object.  Every string is the message of some
    truthy detail: a non-empty one of itself, the empty one of [[]]. *)
Inductive DetailSeen : Type :=
| FalsyDetail
| TruthyDetail (as_string : jsstring).

(** The JSON body of a response that is not OK, as [request] reads it: not
    JSON at all ([response.json()] rejects), [null] (reading [detail] throws),
    or any other value, with what is seen of its [detail] ([FalsyDetail] when
    there is none). *)
Inductive ApiErrorBody : Type :=
| ApiNotJson
| ApiJsonNull
| ApiJson (detail : DetailSeen).

(** A response to [request<T>], its OK body read at type [T]. *)
Inductive ApiResponse (T : Type) : Type :=
| ApiOk (json : Exn + T)
| ApiNotOk (status : N) (json : ApiErrorBody).

Inductive ApiOutcome (T : Type) : Type :=
| ApiRejected (e : Exn)
| ApiResponded (r : ApiResponse T).

Arguments ApiOk {T} json.
Arguments ApiNotOk {T} status json.
Arguments ApiRejected {T} e.
Arguments ApiResponded {T} r.

(** [errorMessage] when [request] throws for a response that is not OK:
    [errorData.detail || errorMessage].  The inner [try] keeps the default
    when the body is not JSON, and also when reading [detail] of [null]
    throws. *)
Definition request_error_message (status : N) (json : ApiErrorBody) : jsstring :=
  let errorMessage := lit "HTTP error! status: " ++ decimal status in
  match json with
  | ApiJson (TruthyDetail as_string) => as_string
  | ApiJson FalsyDetail | ApiNotJson | ApiJsonNull => errorMessage
  end.

Section Request.

Variable T : Type.

(** The server behind [fetch], by address and init. *)
Variable api : jsstring -> RequestInit -> ApiOutcome T.
Variable VITE_API_BASE_URL : option jsstring.

Definition cannot_connect_message : jsstring :=
  lit "Cannot connect to server. Please ensure the backend is running on "
    ++ API_BASE_URL VITE_API_BASE_URL.

(** The [catch (error)] block of [request]. *)
Definition request_catch (error : Exn) : Exn :=
  match class error with
  | TypeErrorClass =>
      if includes (message error) (lit "fetch")
      then Error cannot_connect_message
      else error
  | _ => error
  end.

(** [private async request<T>(endpoint, options)]: what the promise settles
    with.  Its one effect is the [fetch]; the promise of [response.json()] is
    returned without being awaited, so the [catch] does not see its
    rejection. *)
Definition request (endpoint : jsstring) (options : RequestInit) : Exn + T :=
  let url := API_BASE_URL VITE_API_BASE_URL ++ endpoint in
  match api url (fetch_init options) with
  | ApiRejected error => inl (request_catch error)
  | ApiResponded (ApiNotOk status json) =>
      inl (request_catch (Error (request_error_message status json)))
  | ApiResponded (ApiOk json) => json
  end.

End Request.

(* ------------------------------------------------------------------------- *)
(** ** File type checks (pages/hr/Dashboard.tsx, components/FileUpload.tsx) *)
(* ------------------------------------------------------------------------- *)

(** [s.split('.')]: the pieces between the dots, one piece for a string
    without a dot (the empty string included). *)
Fixpoint split_dot (s : jsstring) : list jsstring :=
  match s with
  | [] => [[]]
  | c :: rest =>
      if (c =? 46)%N then [] :: split_dot rest
      else match split_dot rest with
           | piece :: pieces => (c :: piece) :: pieces
           | [] => [[c]]
           end
  end.

(** [array.pop()]: the last element, [undefined] for an empty array. *)
Fixpoint pop (l : list jsstring) : option jsstring :=
  match l with
  | [] => None
  | [x] => Some x
  | _ :: rest => pop rest
  end.

(** [file.name.split('.').pop()]: the piece of the name after its last dot,
    the whole name when it has none. *)
Definition lastPiece (file_name : jsstring) : jsstring :=
  print_optional (pop (split_dot file_name)).

(** ['.' + file.name.split('.').pop()?.toLowerCase()], as the key of the two
    [includes] tests.  [toLowerCase] acts on A..Z here, so this is the code's
    string whenever the last piece has no other cased letter.  The tests
    compare it as a whole with extensions written in a..z and digits without
    a k; a piece with a letter outside A..Z lowers to one of those neither
    here nor in the code (only the Kelvin sign lowers to an ASCII letter, k),
    so both tests answer as the code's do on every name.  The text of a toast
    is never taken from this key: a toast carries [lastPiece]. *)
Definition fileExtension (file_name : jsstring) : jsstring :=
  lit "." ++ print_optional (option_map toLowerCase (pop (split_dot file_name))).

(** [array.includes(x)] on strings. *)
Definition Array_includes (l : list jsstring) (x : jsstring) : bool :=
  existsb (fun y => str_eqb y x) l.

Definition allowedExtensions : list jsstring :=
  [lit ".pdf"; lit ".doc"; lit ".docx"; lit ".txt"].

Definition suspiciousExtensions : list jsstring :=
  [lit ".jpg"; lit ".jpeg"; lit ".png"; lit ".gif"; lit ".bmp"; lit ".svg";
   lit ".mp4"; lit ".mp3"; lit ".avi"; lit ".mov"; lit ".wav"; lit ".zip";
   lit ".rar"; lit ".exe"; lit ".dmg"].

(** [allowedExtensions.includes(fileExtension)] for a file. *)
Definition allowed (file : File) : bool :=
  Array_includes allowedExtensions (fileExtension (name file)).

(** The toasts of the dashboard's file check, with the data they show: the
    rejected names, or the number and the names of the accepted files. *)
Inductive UploadToast : Type :=
| InvalidResumeFiles (rejected : list jsstring)
| ResumesUploaded (count : nat) (accepted : list jsstring).

(** The [files.forEach] of [validateResumeFiles]: one file pushed to
    [validFiles] or its name to [invalidFiles]. *)
Definition sort_file (acc : list File * list jsstring) (file : File)
    : list File * list jsstring :=
  if allowed file then (fst acc ++ [file], snd acc)
  else (fst acc, snd acc ++ [name file]).

(** [const validateResumeFiles = (files: File[]): File[]], with the toasts it
    shows, in order. *)
Definition validateResumeFiles (files : list File) : list File * list UploadToast :=
  let (validFiles, invalidFiles) := fold_left sort_file files ([], []) in
  (validFiles,
   (if (0 <? List.length invalidFiles)%nat
    then [InvalidResumeFiles invalidFiles] else [])
   ++ (if (0 <? List.length validFiles)%nat
       then [ResumesUploaded (List.length validFiles) (map name validFiles)]
       else [])).

(** [handleMultipleFileUpload] (and [handleFileChange], which does the same
    with the files of the input): the checked files replace the selection. *)
Definition handleMultipleFileUpload (files : list File) (st : DashboardState)
    : DashboardState * list UploadToast :=
  let (validFiles, shown) := validateResumeFiles files in
  ({| extractedJobDescription := extractedJobDescription st;
      resumes := validFiles; results := results st; loading := loading st |},
   shown).

(** The toasts of the [FileUpload] component, by kind and datum.  The two
    toasts about the file type show a dot and the last piece of the file name
    in lower case; they carry that piece as it is in the name. *)
Inductive FileUploadToast : Type :=
| InvalidFileType (piece : jsstring)
| UnusualFileType (piece : jsstring)
| ResumeUploaded (file_name : jsstring)
| FileRemoved.

(** [const validateFileType = (file: File): boolean], with its toasts. *)
Definition validateFileType (file : File) : bool * list FileUploadToast :=
  let extension := fileExtension (name file) in
  if negb (Array_includes allowedExtensions extension)
  then (false, [InvalidFileType (lastPiece (name file))])
  else (true,
        if Array_includes suspiciousExtensions extension
        then [UnusualFileType (lastPiece (name file))] else []).

(** What a [FileUpload] does on a change or a drop: the file name it shows,
    the calls of [onFileChange] and the toasts. *)
Record FileUploadRun : Type := {
  shown_name : jsstring;
  onFileChange_calls : list (option File);
  upload_toasts : list FileUploadToast
}.

(** [handleFileChange] and [handleDrop] of [FileUpload], for the first file
    of the event ([None] when it has none). *)
Definition FileUpload_handleFile (label_text fileName : jsstring) (file : option File)
    : FileUploadRun :=
  match file with
  | None => {| shown_name := fileName; onFileChange_calls := []; upload_toasts := [] |}
  | Some f =>
      let (valid, shown) := validateFileType f in
      if valid then
        {| shown_name := name f;
           onFileChange_calls := [Some f];
           upload_toasts :=
             shown ++ (if includes (toLowerCase label_text) (lit "resume")
                       then [ResumeUploaded (name f)] else []) |}
      else
        {| shown_name := fileName; onFileChange_calls := []; upload_toasts := shown |}
  end.

(* ------------------------------------------------------------------------- *)
(** ** pages/Index: the other handlers *)
(* ------------------------------------------------------------------------- *)

(** [const handleJobDescFileChange = async (file: File) => { ... }]. *)
Definition handleJobDescFileChange (file : File) (st : IndexState) (w : World)
    : IndexState * World :=
  let st1 := {| resumeFile := resumeFile st; jobDescFile := Some file;
                jobDescText := jobDescText st; isAnalyzing := isAnalyzing st |} in
  match text file with
  | Some content =>
      ({| resumeFile := resumeFile st1; jobDescFile := jobDescFile st1;
          jobDescText := content; isAnalyzing := isAnalyzing st1 |},
       record_toast (toast_success (lit "Job description file loaded successfully!")) w)
  | None =>
      (st1,
       record_toast (toast_error
         (lit "Failed to read job description file. Please try again.")) w)
  end.

(** [const handleReset = () => { ... }] up to [resetTrigger], which only
    tells the [FileUpload] components to clear. *)
Definition handleReset (st : IndexState) (w : World) : IndexState * World :=
  ({| resumeFile := None; jobDescFile := None; jobDescText := [];
      isAnalyzing := false |},
   record_toast (toast_success (lit "Form reset successfully!")) w).

(* ------------------------------------------------------------------------- *)
(** ** The ATS evaluation page: handleEvaluate *)
(* ------------------------------------------------------------------------- *)

Record EvaluationState : Type := {
  ev_resumeFile : option File;
  ev_jobDescription : jsstring;
  isEvaluating : bool;
  ev_atsResult : option ATSResult
}.

(** The toasts of the page ([useToast]), with the data they show. *)
Inductive EvaluationToast : Type :=
| MissingInformation
| EvaluationComplete (ats : Q) (status_shown : jsstring)
| EvaluationFailed (description : jsstring).

(** What one run of [handleEvaluate] leaves: the state, the toasts and the
    error written to the console, if any. *)
Record EvaluationRun : Type := {
  ev_state : EvaluationState;
  ev_toasts : list EvaluationToast;
  ev_logged : option Exn
}.

Section ATSEvaluationPage.

Variable server : list Request -> Request -> FetchOutcome.
Variable VITE_API_BASE_URL : option jsstring.

(** What [response.json()] rejects with for a body that is not JSON. *)
Variable parse_error : Exn.

(** The request of [handleEvaluate]: the same address and form as the
    client's, without headers. *)
Definition handleEvaluate_request (file : File) (jobDescription : jsstring) : Request :=
  {| url := API_BASE_URL VITE_API_BASE_URL ++ lit "/api/ats/evaluate-resume";
     method := lit "POST";
     body := [ (lit "file", FormFile file);
               (lit "job_description", FormText jobDescription) ];
     headers := [] |}.

(** The [try] block of [handleEvaluate] after the [fetch]: both bodies are
    awaited inside the block. *)
Definition read_evaluation (response : Response) : M ATSResult :=
  match response with
  | NotOk _ NotJson => throw parse_error
  | NotOk _ JsonNull =>
      throw {| class := TypeErrorClass;
               message := lit "Cannot read properties of null (reading 'detail')" |}
  | NotOk _ (Detail detail) => throw (Error (str_or detail (lit "ATS evaluation failed")))
  | Ok json => lift json
  end.

Definition setEvaluation (evaluating : bool) (result : option ATSResult)
    (st : EvaluationState) : EvaluationState :=
  {| ev_resumeFile := ev_resumeFile st; ev_jobDescription := ev_jobDescription st;
     isEvaluating := evaluating; ev_atsResult := result |}.

(** [const handleEvaluate = async () => { ... }]. *)
Definition handleEvaluate (st : EvaluationState) (w : World) : EvaluationRun * World :=
  match ev_resumeFile st, nonempty (trim (ev_jobDescription st)) with
  | Some resume, true =>
      match (response <- fetch server
                           (handleEvaluate_request resume (ev_jobDescription st)) ;;
             read_evaluation response) w with
      | (inr result, w') =>
          ({| ev_state := setEvaluation false (Some result) st;
              ev_toasts := [EvaluationComplete (ats_score result) (status result)];
              ev_logged := None |}, w')
      | (inl error, w') =>
          ({| ev_state := setEvaluation false (ev_atsResult st) st;
              ev_toasts := [EvaluationFailed (message error)];
              ev_logged := Some error |}, w')
      end
  | _, _ =>
      ({| ev_state := st; ev_toasts := [MissingInformation]; ev_logged := None |}, w)
  end.

End ATSEvaluationPage.

(* ------------------------------------------------------------------------- *)
(** ** Score bands of the gauge and of the Results page *)
(* ------------------------------------------------------------------------- *)

(** [x >= q] for a number and a finite bound, false on NaN. *)
Definition num_geq (x : number) (q : Q) : bool :=
  match x with
  | Infinity => true
  | Num p => geq p q
  | NaN | NegInfinity => false
  end.

(** [getScoreColorVar] of [ScoreGauge]. *)
Definition getScoreColorVar (x : number) : jsstring :=
  if num_geq x 80 then lit "hsl(var(--success))"
  else if num_geq x 60 then lit "hsl(var(--accent))"
  else lit "hsl(var(--warning))".

(** The stroke colour of the gauge for a [score] prop. *)
Definition gauge_colour (x : number) : jsstring := getScoreColorVar (validScore x).

(** [const skillMatchLevel = realScore >= 80 ? "High" : realScore >= 60 ?
    "Medium" : "Low"] of the Results page. *)
Definition skillMatchLevel (realScore : Q) : jsstring :=
  if geq realScore 80 then lit "High"
  else if geq realScore 60 then lit "Medium"
  else lit "Low".

(** The colour of the gauge the Results page renders:
    [<ScoreGauge score={Math.round(realScore)} />]. *)
Definition Results_gauge_colour (realScore : Q) : jsstring :=
  gauge_colour (Math_round (Num realScore)).

(* ------------------------------------------------------------------------- *)
(** ** contexts/HybridAuthContext.tsx and components/ProtectedRoute.tsx *)
(* ------------------------------------------------------------------------- *)

Inductive Role : Type := candidate | hr.

Definition role_eqb (a b : Role) : bool :=
  match a, b with
  | candidate, candidate | hr, hr => true
  | _, _ => false
  end.

Definition role_text (r : Role) : jsstring :=
  match r with candidate => lit "candidate" | hr => lit "hr" end.

(** A [User] as this code builds and reads it. *)
Record User : Type := {
  user_id : jsstring;
  user_email : jsstring;
  user_metadata_role : option Role
}.

Record AuthError : Type := { auth_message : jsstring }.

(** The state of [HybridAuthProvider]; a session is kept as its token. *)
Record AuthState : Type := {
  auth_user : option User;
  auth_session : option jsstring;
  auth_userRole : option Role;
  auth_loading : bool;
  isOfflineMode : bool
}.

(** The initial state: the five [useState] calls. *)
Definition initial_auth : AuthState :=
  {| auth_user := None; auth_session := None; auth_userRole := None;
     auth_loading := true; isOfflineMode := false |}.

(** What a component of the route renders. *)
Inductive Rendered : Type :=
| Spinner
| NavigateTo (path : jsstring)
| Children.

(** [userRole !== requiredRole]. *)
Definition role_differs (userRole : option Role) (requiredRole : Role) : bool :=
  match userRole with
  | Some r => negb (role_eqb r requiredRole)
  | None => true
  end.

(** [export const ProtectedRoute = ({ children, requiredRole }) => ...]. *)
Definition ProtectedRoute (auth : AuthState) (requiredRole : option Role) : Rendered :=
  if auth_loading auth then Spinner
  else if negb (isSome (auth_user auth)) && negb (isOfflineMode auth)
  then NavigateTo (lit "/auth/login")
  else match requiredRole with
       | Some required =>
           if role_differs (auth_userRole auth) required
           then NavigateTo (match auth_userRole auth with
                            | Some candidate => lit "/"
                            | _ => lit "/hr/dashboard"
                            end)
           else Children
       | None => Children
       end.

(** The guard the router puts on a path: only "/hr/dashboard" is wrapped, in
    [<ProtectedRoute requiredRole="hr">]. *)
Definition route_guard (path : jsstring) : option Role :=
  if str_eqb path (lit "/hr/dashboard") then Some hr else None.

(** What the router renders for a path: the guard's answer for the guarded
    path, the page itself elsewhere. *)
Definition render_route (auth : AuthState) (path : jsstring) : Rendered :=
  match route_guard path with
  | Some required => ProtectedRoute auth (Some required)
  | None => Children
  end.

(** What a call to Supabase gives to [signIn] and [signUp]: a thrown error,
    or a result with an error or none.  The online branches of both functions
    only report it and leave the provider's state as it is. *)
Inductive SupabaseResult : Type :=
| SupabaseThrows (e : AuthError)
| SupabaseReturns (error : option AuthError).

Definition reported (r : SupabaseResult) : option AuthError :=
  match r with
  | SupabaseThrows e => Some e
  | SupabaseReturns error => error
  end.

(** [const signIn = async (email, password) => { ... }]: the state it leaves
    and the [error] of its result. *)
Definition signIn (signInWithPassword : jsstring -> jsstring -> SupabaseResult)
    (st : AuthState) (email password : jsstring) : AuthState * option AuthError :=
  if isOfflineMode st then
    let role := if includes (toLowerCase email) (lit "hr") then hr else candidate in
    ({| auth_user := Some {| user_id := lit "offline-user"; user_email := email;
                             user_metadata_role := Some role |};
        auth_session := auth_session st;
        auth_userRole := Some role;
        auth_loading := false;
        isOfflineMode := isOfflineMode st |},
     None)
  else (st, reported (signInWithPassword email password)).

(** [const signUp = async (email, password, fullName, role) => { ... }]; the
    online branch (the Supabase sign-up and the role rows) enters by what it
    reports. *)
Definition signUp (online : jsstring -> jsstring -> jsstring -> Role -> SupabaseResult)
    (st : AuthState) (email password fullName : jsstring) (role : Role)
    : AuthState * option AuthError :=
  if isOfflineMode st then
    ({| auth_user := auth_user st; auth_session := auth_session st;
        auth_userRole := Some role; auth_loading := auth_loading st;
        isOfflineMode := true |},
     None)
  else (st, reported (online email password fullName role)).

(** [const switchToOfflineMode = (role) => { ... }]: the state and the path
    it navigates to. *)
Definition switchToOfflineMode (role : Role) (st : AuthState) : AuthState * jsstring :=
  ({| auth_user := Some {| user_id := lit "offline-" ++ role_text role;
                           user_email := lit "test-" ++ role_text role
                                           ++ lit "@example.com";
                           user_metadata_role := Some role |};
      auth_session := auth_session st;
      auth_userRole := Some role;
      auth_loading := false;
      isOfflineMode := true |},
   match role with hr => lit "/hr/dashboard" | candidate => lit "/app" end).

(** [const signOut = async () => { ... }]: [None] when the awaited Supabase
    sign-out rejects (nothing after it runs), else the state and the path. *)
Definition signOut (supabase_signOut_rejects : bool) (st : AuthState)
    : option (AuthState * jsstring) :=
  if negb (isOfflineMode st) && supabase_signOut_rejects then None
  else Some ({| auth_user := None; auth_session := None; auth_userRole := None;
                auth_loading := auth_loading st;
                isOfflineMode := isOfflineMode st |},
             lit "/auth/login").

(** The effect of the Index page that sends HR users to the dashboard: the
    path it navigates to, if it does. *)
Definition Index_redirect (auth : AuthState) : option jsstring :=
  if negb (auth_loading auth) && isSome (auth_user auth)
     && match auth_userRole auth with Some hr => true | _ => false end
  then Some (lit "/hr/dashboard") else None.

(* ------------------------------------------------------------------------- *)
(** ** Facts about numbers *)
(* ------------------------------------------------------------------------- *)

Lemma Qle_bool_inject_Z (a b : Z) :
  Qle_bool (inject_Z a) (inject_Z b) = (a <=? b)%Z.
Proof.
  unfold Qle_bool, inject_Z; simpl. now rewrite !Z.mul_1_r.
Qed.

Lemma Qeq_bool_inject_Z (a b : Z) :
  Qeq_bool (inject_Z a) (inject_Z b) = (a =? b)%Z.
Proof.
  destruct (Z.eqb_spec a b) as [->|Hne].
  - apply Qeq_bool_iff. reflexivity.
  - destruct (Qeq_bool (inject_Z a) (inject_Z b)) eqn:E; [|reflexivity].
    apply Qeq_bool_iff in E. rewrite inject_Z_injective in E. contradiction.
Qed.

(** [Math.round] is within a half of its argument, the upper half excluded. *)
Lemma round_half_up_bounds (q : Q) :
  q - (1 # 2) < inject_Z (round_half_up q) /\ inject_Z (round_half_up q) <= q + (1 # 2).
Proof.
  unfold round_half_up.
  pose proof (Qfloor_le (q + (1 # 2))) as Hle.
  pose proof (Qlt_floor (q + (1 # 2))) as Hlt.
  rewrite inject_Z_plus in Hlt.
  change (inject_Z 1) with 1 in Hlt.
  split; lra.
Qed.

(** An integer is fixed by a rational window of width one. *)
Lemma integer_in_window (a b : Z) :
  inject_Z b - (1 # 2) < inject_Z a -> inject_Z a <= inject_Z b + (1 # 2) -> a = b.
Proof.
  intros Hlo Hhi.
  assert (H1 : inject_Z b < inject_Z (a + 1)).
  { rewrite inject_Z_plus. change (inject_Z 1) with 1. lra. }
  assert (H2 : inject_Z a < inject_Z (b + 1)).
  { rewrite inject_Z_plus. change (inject_Z 1) with 1. lra. }
  rewrite <- Zlt_Qlt in H1, H2. lia.
Qed.

Lemma round_half_up_inject_Z (z : Z) : round_half_up (inject_Z z) = z.
Proof.
  destruct (round_half_up_bounds (inject_Z z)) as [Hlo Hhi].
  now apply integer_in_window.
Qed.

Lemma round_half_up_le (p q : Q) : p <= q -> (round_half_up p <= round_half_up q)%Z.
Proof.
  intros H. unfold round_half_up. apply Qfloor_resp_le. lra.
Qed.

Lemma or_else_zero (z : Z) : or_else (of_Z z) (of_Z 0) = of_Z z.
Proof.
  unfold or_else, truthy, of_Z.
  change 0 with (inject_Z 0). rewrite Qeq_bool_inject_Z.
  destruct (Z.eqb_spec z 0) as [->|_]; reflexivity.
Qed.

Lemma Math_min_of_Z (a b : Z) : Math_min (of_Z a) (of_Z b) = of_Z (Z.min a b).
Proof.
  unfold Math_min, of_Z. rewrite Qle_bool_inject_Z.
  destruct (Z.leb_spec a b); [rewrite Z.min_l | rewrite Z.min_r]; auto; lia.
Qed.

Lemma Math_max_of_Z (a b : Z) : Math_max (of_Z a) (of_Z b) = of_Z (Z.max a b).
Proof.
  unfold Math_max, of_Z. rewrite Qle_bool_inject_Z.
  destruct (Z.leb_spec a b); [rewrite Z.max_r | rewrite Z.max_l]; auto; lia.
Qed.

(* ------------------------------------------------------------------------- *)
(** ** Rounding to the nearest double *)
(* ------------------------------------------------------------------------- *)


























(** [to_double] against the binary64 operations of the Standard Library, on
    30.4 + 64.6 (a tie, resolved to the even significand of 95), on 0.1 + 0.2,
    on a sum of opposite signs, on the largest double added to itself (an
    infinity), on the halves of two sums and of the least subnormal, which is
    rounded to zero. *)
Example to_double_agrees_with_SFadd :
  let d304 := S754_finite false 8556839292003942 (-48) in
  let d646 := S754_finite false 9091641747754188 (-47) in
  let d01 := S754_finite false 7205759403792794 (-56) in
  let d02 := S754_finite false 7205759403792794 (-55) in
  let minus_d304 := S754_finite true 8556839292003942 (-48) in
  let largest := S754_finite false 9007199254740991 971 in
  let least := S754_finite false 1 (-1074) in
  let two := S754_finite false 4503599627370496 (-51) in
  add (of_spec_float d304) (of_spec_float d646)
    = of_spec_float (SFadd 53 1024 d304 d646)
  /\ add (of_spec_float d304) (of_spec_float d646) = Num 95
  /\ add (of_spec_float d01) (of_spec_float d02)
     = of_spec_float (SFadd 53 1024 d01 d02)
  /\ add (of_spec_float minus_d304) (of_spec_float d01)
     = of_spec_float (SFadd 53 1024 minus_d304 d01)
  /\ add (of_spec_float largest) (of_spec_float largest)
     = of_spec_float (SFadd 53 1024 largest largest)
  /\ half (add (of_spec_float d304) (of_spec_float d646))
     = of_spec_float (SFdiv 53 1024 (SFadd 53 1024 d304 d646) two)
  /\ half (add (of_spec_float minus_d304) (of_spec_float d01))
     = of_spec_float (SFdiv 53 1024 (SFadd 53 1024 minus_d304 d01) two)
  /\ half (of_spec_float least) = of_spec_float (SFdiv 53 1024 least two).
Proof. vm_compute. repeat split. Qed.

(* ------------------------------------------------------------------------- *)
(** ** The score gauge *)
(* ------------------------------------------------------------------------- *)

(** C10.  The gauge is total: for every score, NaN and the infinities
    included, [validScore] is max(0, min(100, round(score))) with NaN shown
    as 0, and it is an integer between 0 and 100. *)
Theorem ScoreGauge_validScore_total (score : number) :
  validScore score = clamped_round score
  /\ exists z : Z,
       validScore score = of_Z z /\ (0 <= z <= 100)%Z
       /\ match score with
          | NaN | NegInfinity => z = 0%Z
          | Infinity => z = 100%Z
          | Num q => z = clamped_round_Z q
          end.
Proof.
  destruct score as [ | | | q].
  - split; [reflexivity|]. exists 0%Z. repeat split; lia.
  - split; [reflexivity|]. exists 100%Z. repeat split; lia.
  - split; [reflexivity|]. exists 0%Z. repeat split; lia.
  - unfold validScore, clamped_round. cbn [Math_round].
    rewrite or_else_zero, Math_min_of_Z, Math_max_of_Z.
    split; [reflexivity|].
    exists (clamped_round_Z q). unfold clamped_round_Z.
    repeat split; lia.
Qed.

Example validScore_rounds_up : validScore (Num (159 # 2)) = of_Z 80.
Proof. reflexivity. Qed.

Example validScore_above_range : validScore (Num 250) = of_Z 100.
Proof. reflexivity. Qed.

Example validScore_negative : validScore (Num (- (7 # 2))) = of_Z 0.
Proof. reflexivity. Qed.

(* ------------------------------------------------------------------------- *)
(** ** The Keywords & Tools row *)
(* ------------------------------------------------------------------------- *)

Lemma str_eqb_eq (a b : jsstring) : str_eqb a b = true <-> a = b.
Proof.
  revert b. induction a as [|x a IH]; intros [|y b]; simpl; split;
    try congruence; try reflexivity.
  - intros H. apply andb_prop in H as [Hx Hab].
    apply N.eqb_eq in Hx. apply IH in Hab. congruence.
  - intros H. injection H as -> ->. rewrite N.eqb_refl. simpl. now apply IH.
Qed.

Lemma round_half_up_of_integer (q : Q) (z : Z) :
  q == inject_Z z -> round_half_up q = z.
Proof.
  intros H. destruct (round_half_up_bounds q) as [Hlo Hhi].
  apply integer_in_window; lra.
Qed.








(** The pages on the doubles 30.4 and 64.6, whose exact mean is below 47.5:
    the sum is rounded to 95, the ATS evaluation page prints 47.5 and the
    Results page 48. *)
Example rows_of_rounded_sum :
  let b := sample_breakdown (4278419646001971 # 140737488355328)
                            (2272910436938547 # 35184372088832) in
  keywords_tools_mean b = Num (95 # 2)
  /\ (keyword_match_score b + tech_stack_match_score b) / 2 < 95 # 2
  /\ row_score Keywords_and_Tools (Results_rows b) = Some (of_Z 48)
  /\ option_map ATSEvaluationPage_row_text
       (find (fun r => str_eqb (label r) Keywords_and_Tools) (ATSEvaluationPage_rows b))
     = Some (Some 475%Z).
Proof. vm_compute. repeat split. Qed.

Example toFixed1_of_mean : toFixed1 ((50 + 51) / 2) = 505%Z.
Proof. reflexivity. Qed.

(* ------------------------------------------------------------------------- *)
(** ** The final score *)
(* ------------------------------------------------------------------------- *)

Lemma Qle_bool_false (x y : Q) : Qle_bool x y = false -> y < x.
Proof.
  intros H. apply Qnot_le_lt. intros Hle.
  apply Qle_bool_iff in Hle. congruence.
Qed.

Lemma clamp_bounds (x : Q) : 0 <= clamp 0 100 x <= 100.
Proof.
  unfold clamp.
  destruct (Qle_bool x 0) eqn:E0; [lra|].
  destruct (Qle_bool 100 x) eqn:E1; [lra|].
  apply Qle_bool_false in E0, E1. lra.
Qed.

Lemma clamp_in_range (x : Q) : 0 <= x <= 100 -> clamp 0 100 x == x.
Proof.
  intros [Hlo Hhi]. unfold clamp.
  destruct (Qle_bool x 0) eqn:E0.
  - apply Qle_bool_iff in E0. lra.
  - destruct (Qle_bool 100 x) eqn:E1; [|reflexivity].
    apply Qle_bool_iff in E1. lra.
Qed.

Lemma round_half_up_comp (p q : Q) : p == q -> round_half_up p = round_half_up q.
Proof.
  intros H. unfold round_half_up. apply Qfloor_comp. now rewrite H.
Qed.

Lemma round_to_comp (r : Rounding) (p q : Q) : p == q -> round_to r p == round_to r q.
Proof.
  intros H. destruct r; simpl.
  - now rewrite (round_half_up_comp H).
  - rewrite (@round_half_up_comp (p * 10) (q * 10)); [reflexivity | now rewrite H].
Qed.

Lemma round_to_close (r : Rounding) (x : Q) :
  x - tolerance r < round_to r x /\ round_to r x <= x + tolerance r.
Proof.
  destruct r; simpl.
  - apply round_half_up_bounds.
  - destruct (round_half_up_bounds (x * 10)) as [Hlo Hhi].
    set (n := inject_Z (round_half_up (x * 10))) in *. clearbody n.
    split.
    + apply Qlt_shift_div_l; lra.
    + apply Qle_shift_div_r; lra.
Qed.

Lemma round_to_in_range (r : Rounding) (x : Q) :
  0 <= x <= 100 -> 0 <= round_to r x <= 100.
Proof.
  intros [Hlo Hhi]. destruct r; simpl.
  - pose proof (round_half_up_le Hlo) as H0. pose proof (round_half_up_le Hhi) as H1.
    change 0 with (inject_Z 0) in H0. change 100 with (inject_Z 100) in H1.
    rewrite round_half_up_inject_Z in H0, H1.
    rewrite Zle_Qle in H0, H1. split; assumption.
  - assert (H0 : inject_Z 0 <= x * 10) by (change (inject_Z 0) with 0; lra).
    assert (H1 : x * 10 <= inject_Z 1000) by (change (inject_Z 1000) with 1000; lra).
    apply round_half_up_le in H0, H1.
    rewrite round_half_up_inject_Z in H0, H1.
    rewrite Zle_Qle in H0, H1.
    set (n := inject_Z (round_half_up (x * 10))) in *. clearbody n.
    change (inject_Z 0) with 0 in H0. change (inject_Z 1000) with 1000 in H1.
    split.
    + apply Qle_shift_div_l; lra.
    + apply Qle_shift_div_r; lra.
Qed.

Lemma weighted_sum_in_range (b : ATSScoreBreakdown) :
  sub_scores_in_range b -> 0 <= weighted_sum b <= 100.
Proof.
  unfold sub_scores_in_range, weighted_sum, sub_scores.
  intros H.
  repeat match goal with
         | H : Forall _ (_ :: _) |- _ => inversion H; subst; clear H
         end.
  cbn [dot weights].
  repeat match goal with
         | |- context [?f b] => generalize dependent (f b); intros
         end.
  lra.
Qed.

(** The weights are the ones the rows of both pages print. *)
Lemma rows_print_the_weights (b : ATSScoreBreakdown) :
  map weight (Results_rows b) = map weight_text weights
  /\ map weight (ATSEvaluationPage_rows b) = map weight_text weights.
Proof. split; reflexivity. Qed.

(** The final score stays in [0,100] even for sub-scores that are out of
    range: the clamp of step 7. *)
Lemma final_score_in_range (r : Rounding) (b : ATSScoreBreakdown) :
  0 <= final_score r b <= 100.
Proof. apply round_to_in_range, clamp_bounds. Qed.

(** C1.  For a breakdown whose six sub-scores lie in [0,100], the final score
    lies in [0,100] and is the weighted sum of the sub-scores under the
    weights 0.40, 0.25, 0.15, 0.10, 0.05, 0.05, which add up to 1, rounded to
    the nearest integer or to one decimal place. *)
Theorem final_score_is_weighted_sum (r : Rounding) (b : ATSScoreBreakdown) :
  sub_scores_in_range b ->
  0 <= final_score r b <= 100
  /\ final_score r b == round_to r (weighted_sum b)
  /\ Qabs (final_score r b - weighted_sum b) <= tolerance r
  /\ weighted_sum b ==
       (40 # 100) * skill_match_score b + (25 # 100) * experience_score b
       + (15 # 100) * role_fit_score b + (10 # 100) * education_match_score b
       + (5 # 100) * certifications_score b
       + (5 # 100) * ((keyword_match_score b + tech_stack_match_score b) / 2)
  /\ fold_right Qplus 0 weights == 1.
Proof.
  intros Hrange.
  pose proof (weighted_sum_in_range Hrange) as Hsum.
  assert (Heq : final_score r b == round_to r (weighted_sum b)).
  { unfold final_score. apply round_to_comp, clamp_in_range, Hsum. }
  split; [apply final_score_in_range|].
  split; [exact Heq|].
  split.
  - apply Qabs_Qle_condition.
    destruct (round_to_close r (weighted_sum b)) as [Hlo Hhi].
    rewrite Heq. split; lra.
  - split; [|reflexivity].
    unfold weighted_sum, sub_scores, keywords_tools_score. cbn [dot weights]. lra.
Qed.

Lemma sample_breakdown_in_range : sub_scores_in_range (sample_breakdown 50 51).
Proof.
  unfold sub_scores_in_range, sub_scores, keywords_tools_score, sample_breakdown,
    breakdown_with.
  cbn [skill_match_score experience_score role_fit_score education_match_score
       certifications_score keyword_match_score tech_stack_match_score].
  repeat (apply Forall_cons; [split; vm_compute; discriminate|]). apply Forall_nil.
Defined.

Lemma final_score_is_weighted_sum_witness :
  let b := sample_breakdown 50 51 in
  0 <= final_score OneDecimal b <= 100
  /\ final_score OneDecimal b == round_to OneDecimal (weighted_sum b)
  /\ Qabs (final_score OneDecimal b - weighted_sum b) <= tolerance OneDecimal
  /\ weighted_sum b ==
       (40 # 100) * skill_match_score b + (25 # 100) * experience_score b
       + (15 # 100) * role_fit_score b + (10 # 100) * education_match_score b
       + (5 # 100) * certifications_score b
       + (5 # 100) * ((keyword_match_score b + tech_stack_match_score b) / 2)
  /\ fold_right Qplus 0 weights == 1.
Proof.
  exact (final_score_is_weighted_sum OneDecimal sample_breakdown_in_range).
Defined.

Example final_score_sample_integer :
  weighted_sum (sample_breakdown 50 51) == 3141 # 40
  /\ final_score NearestInteger (sample_breakdown 50 51) == 79
  /\ final_score OneDecimal (sample_breakdown 50 51) == 785 # 10.
Proof. repeat split. Qed.

Example final_score_all_hundred :
  final_score NearestInteger (breakdown_with 100 100 100) == 100
  /\ final_score OneDecimal (breakdown_with 100 100 100) == 100.
Proof. split; reflexivity. Qed.

(* ------------------------------------------------------------------------- *)
(** ** Status bands and the recruiter's shortlist *)
(* ------------------------------------------------------------------------- *)

Lemma geq_iff (a b : Q) : geq a b = true <-> b <= a.
Proof. unfold geq. apply Qle_bool_iff. Qed.

Lemma geq_false (a b : Q) : geq a b = false <-> a < b.
Proof.
  unfold geq. split.
  - apply Qle_bool_false.
  - intros H. destruct (Qle_bool b a) eqn:E; [|reflexivity].
    apply Qle_bool_iff in E. lra.
Qed.

(** The bands of step 8. *)
Lemma status_of_bands (final : Q) :
  (status_of final = SHORTLISTED <-> 80 <= final)
  /\ (status_of final = BORDERLINE <-> 50 <= final /\ final < 80)
  /\ (status_of final = NOT_SHORTLISTED <-> final < 50).
Proof.
  unfold status_of.
  destruct (geq final 80) eqn:E80; [|destruct (geq final 50) eqn:E50].
  - apply geq_iff in E80. repeat split; try discriminate; intros; lra.
  - apply geq_false in E80. apply geq_iff in E50.
    repeat split; try discriminate; intros; try lra.
  - apply geq_false in E80. apply geq_false in E50.
    repeat split; try discriminate; intros; lra.
Qed.

(** [getScoreColor] paints a score by the band of its status. *)
Lemma getScoreColor_by_band (score : Q) :
  getScoreColor score =
    match status_of score with
    | SHORTLISTED => lit "text-green-600"
    | BORDERLINE => lit "text-yellow-600"
    | NOT_SHORTLISTED => lit "text-red-600"
    end.
Proof.
  unfold getScoreColor, status_of.
  destruct (geq score 80); [reflexivity|]. destruct (geq score 50); reflexivity.
Qed.

Lemma getStatusBadgeVariant_by_status :
  map (fun s => getStatusBadgeVariant (status_text s))
      [SHORTLISTED; BORDERLINE; NOT_SHORTLISTED]
  = [lit "default"; lit "secondary"; lit "destructive"].
Proof. reflexivity. Qed.

(** C2, the dashboard at a score of 75.  The status band is BORDERLINE and the
    candidate's card is not shortlisted, yet the header counts the candidate
    among the shortlisted: the count filters on 70, the card tests 80.  A
    score of 79.5 is BORDERLINE too, but its card is shortlisted, because the
    card tests the rounded score. *)
Theorem dashboard_shortlist_thresholds_disagree :
  let r := toScoringResult [sample_file (lit "a.pdf")] 0
             (sample_result 75 BORDERLINE_NEEDS_IMPROVEMENT (lit "a@example.com")) in
  let r' := toScoringResult [sample_file (lit "b.pdf")] 0
             (sample_result (159 # 2) BORDERLINE_NEEDS_IMPROVEMENT (lit "b@example.com")) in
  status_of 75 = BORDERLINE
  /\ total_score r = 75%Z
  /\ is_shortlisted r = false
  /\ isShortlisted r = false
  /\ shortlisted_count (sortedResults [r]) = 1%nat
  /\ status_of (159 # 2) = BORDERLINE
  /\ is_shortlisted r' = false
  /\ isShortlisted r' = true.
Proof. repeat split. Qed.

(* ------------------------------------------------------------------------- *)
(** ** Array.prototype.sort on a numeric key *)
(* ------------------------------------------------------------------------- *)

Section SortFacts.

Variable A : Type.
Variable comparefn : A -> A -> number.

Lemma insert_sorted_perm (x : A) (l : list A) :
  Permutation (insert_sorted comparefn x l) (x :: l).
Proof.
  induction l as [|y l IH]; simpl; [reflexivity|].
  destruct (positive (SortCompare comparefn x y)); [|reflexivity].
  rewrite IH. apply perm_swap.
Qed.

Lemma Array_sort_perm (l : list A) : Permutation (Array_sort comparefn l) l.
Proof.
  induction l as [|x l IH]; simpl; [reflexivity|].
  rewrite insert_sorted_perm. now constructor.
Qed.

(** A comparator that never asks for a swap leaves the array as it is. *)
Lemma Array_sort_no_swap (l : list A) :
  (forall x y, positive (SortCompare comparefn x y) = false) ->
  Array_sort comparefn l = l.
Proof.
  intros Hno. induction l as [|x l IH]; simpl; [reflexivity|].
  rewrite IH. destruct l as [|y l]; simpl; [reflexivity|].
  now rewrite Hno.
Qed.

(** The comparator orders by an integer key, larger keys first. *)
Variable key : A -> Z.
Hypothesis swap_iff : forall x y,
  positive (SortCompare comparefn x y) = (key x <? key y)%Z.

Lemma insert_sorted_descending (x : A) (l : list A) :
  StronglySorted (descending key) l ->
  StronglySorted (descending key) (insert_sorted comparefn x l).
Proof.
  induction 1 as [|y l Hl IH Hy]; simpl.
  - repeat constructor.
  - rewrite swap_iff. destruct (Z.ltb_spec (key x) (key y)) as [Hlt|Hge].
    + constructor; [exact IH|].
      rewrite (insert_sorted_perm x l). constructor; [unfold descending; lia|exact Hy].
    + constructor; [now constructor|].
      constructor; [exact Hge|].
      eapply Forall_impl; [|exact Hy]. unfold descending. intros; lia.
Qed.

Lemma Array_sort_descending (l : list A) :
  StronglySorted (descending key) (Array_sort comparefn l).
Proof.
  induction l as [|x l IH]; simpl; [constructor|].
  now apply insert_sorted_descending.
Qed.

(** Stability: the elements of any one key keep their order. *)
Lemma insert_sorted_stable (v : Z) (x : A) (l : list A) :
  filter (fun a => (key a =? v)%Z) (insert_sorted comparefn x l)
  = filter (fun a => (key a =? v)%Z) (x :: l).
Proof.
  induction l as [|y l IH]; simpl; [reflexivity|].
  rewrite swap_iff. destruct (Z.ltb_spec (key x) (key y)) as [Hlt|Hge];
    [|reflexivity].
  simpl. rewrite IH. simpl.
  destruct (Z.eqb_spec (key x) v), (Z.eqb_spec (key y) v); try reflexivity.
  lia.
Qed.

Lemma Array_sort_stable (v : Z) (l : list A) :
  filter (fun a => (key a =? v)%Z) (Array_sort comparefn l)
  = filter (fun a => (key a =? v)%Z) l.
Proof.
  induction l as [|x l IH]; simpl; [reflexivity|].
  rewrite insert_sorted_stable. simpl. now rewrite IH.
Qed.

End SortFacts.

Lemma by_total_score_swap (x y : ScoringResult) :
  positive (SortCompare by_total_score x y) = (total_score x <? total_score y)%Z.
Proof.
  unfold SortCompare, by_total_score, of_Z, sub, positive.
  destruct (Z.ltb_spec (total_score x) (total_score y)) as [Hlt|Hge].
  - apply negb_true_iff.
    destruct (Qle_bool _ _) eqn:E; [|reflexivity].
    apply Qle_bool_iff in E. rewrite Zlt_Qlt in Hlt. lra.
  - apply negb_false_iff. apply Qle_bool_iff. rewrite Zle_Qle in Hge. lra.
Qed.

Lemma by_score_no_swap (x y : ScoringResult) :
  positive (SortCompare by_score x y) = false.
Proof. reflexivity. Qed.

Lemma sortedResults_same (results : list ScoringResult) :
  sortedResults results = results.
Proof. apply Array_sort_no_swap, by_score_no_swap. Qed.

Lemma convert_from_scores (resumes : list File) (i : nat) (atsResults : list ATSResult) :
  Forall (fun s => exists r, In r atsResults /\ atsResult s = Some r
                             /\ total_score s = round_half_up (ats_score r))
         (convert_from resumes i atsResults).
Proof.
  revert i. induction atsResults as [|r rest IH]; intros i; simpl; constructor.
  - exists r. simpl. auto.
  - eapply Forall_impl; [|apply IH].
    intros s (r' & Hin & Hs & Ht). exists r'. simpl. auto.
Qed.

Lemma convert_from_results (resumes : list File) (i : nat) (atsResults : list ATSResult) :
  map atsResult (convert_from resumes i atsResults) = map Some atsResults.
Proof.
  revert i. induction atsResults as [|r rest IH]; intros i; simpl;
    [reflexivity|]. now rewrite IH.
Qed.

(* ------------------------------------------------------------------------- *)
(** ** The recruiter's ranking *)
(* ------------------------------------------------------------------------- *)

(** C4, the claim at a concrete batch: two results with final scores 79.6 and
    80.4, uploaded in this order, are shown in this order, the lower final
    score first, because both round to 80. *)
Lemma ranking_ignores_fractions :
  let files := [sample_file (lit "a.pdf"); sample_file (lit "b.pdf")] in
  let batch := [sample_result (398 # 5) BORDERLINE_NEEDS_IMPROVEMENT (lit "a@example.com");
                sample_result (402 # 5) (lit "SHORTLISTED") (lit "b@example.com")] in
  let shown := sortedResults (analysisResults files batch) in
  map (fun s => option_map ats_score (atsResult s)) shown
    = [Some (398 # 5); Some (402 # 5)]
  /\ map total_score shown = [80%Z; 80%Z]
  /\ 398 # 5 < 402 # 5.
Proof. repeat split. Qed.

(** C4, amended.  The list shown to the recruiter holds the converted results
    of the batch, each with the score [Math.round(ats_score)]; it is in
    descending order of that rounded score, and the results of any one rounded
    score keep their upload order. *)
Theorem dashboard_ranking (resumes : list File) (atsResults : list ATSResult) :
  let converted := convert_from resumes 0 atsResults in
  let shown := sortedResults (analysisResults resumes atsResults) in
  Permutation shown converted
  /\ map atsResult converted = map Some atsResults
  /\ Forall (fun s => exists r, In r atsResults /\ atsResult s = Some r
                                /\ total_score s = round_half_up (ats_score r)) shown
  /\ StronglySorted (descending total_score) shown
  /\ forall v : Z,
       filter (fun s => (total_score s =? v)%Z) shown
       = filter (fun s => (total_score s =? v)%Z) converted.
Proof.
  intros converted shown. unfold shown, analysisResults. fold converted.
  rewrite sortedResults_same.
  split; [apply Array_sort_perm|].
  split; [apply convert_from_results|].
  split.
  - rewrite Forall_forall. intros s Hs.
    pose proof (convert_from_scores resumes 0 atsResults) as Hall.
    rewrite Forall_forall in Hall. apply Hall.
    eapply Permutation_in; [apply Array_sort_perm|exact Hs].
  - split.
    + apply Array_sort_descending, by_total_score_swap.
    + intros v. apply Array_sort_stable, by_total_score_swap.
Qed.

Example ranking_of_three :
  map total_score
    (sortedResults (analysisResults []
       [sample_result 61 [] []; sample_result (181 # 2) [] []; sample_result 61 [] []]))
  = [91%Z; 61%Z; 61%Z].
Proof. reflexivity. Qed.

(* ------------------------------------------------------------------------- *)
(** ** The ATS client *)
(* ------------------------------------------------------------------------- *)

Section ClientFacts.

Variable server : list Request -> Request -> FetchOutcome.
Variable base : option jsstring.

(** One evaluation: it settles by the outcome of its single request and
    leaves the world with that request recorded. *)
Lemma evaluate_run (file : File) (jd : jsstring) (w : World) :
  evaluateResumeWithATS server base file jd w
  = (settle_fetch base (server (sent w) (next_request base file jd w)),
     record_request (next_request base file jd w) (tick_entropy (tick_clock w))).
Proof.
  unfold evaluateResumeWithATS, bind, try_catch, Date_now, Math_random_id, fetch,
    next_request, settle_fetch, rethrow_fetch_error, throw, ret.
  cbn [sent clock entropy clock_reads entropy_reads tick_clock tick_entropy].
  destruct (server (sent w) _) as [e | [json | status error]].
  - destruct (isFailedToFetch e); reflexivity.
  - destruct json; reflexivity.
  - destruct error; reflexivity.
Qed.

Lemma evaluate_each_run (files : list File) (jd : jsstring)
    (acc : list ATSResult) (w : World) :
  evaluate_each server base files jd acc w
  = (inr (acc ++ successes (evaluations server base files jd w)),
     after_turns server base files jd w).
Proof.
  revert acc w. induction files as [|file rest IH]; intros acc w.
  - simpl. unfold ret. now rewrite app_nil_r.
  - cbn [evaluate_each evaluations after_turns successes].
    unfold bind at 1, try_catch, after_turn, settled.
    unfold bind at 1.
    destruct (evaluateResumeWithATS server base file jd w) as [[e | r] w'];
      cbn [fst].
    + unfold bind, console_error, ret. rewrite IH. reflexivity.
    + unfold ret. rewrite IH. now rewrite <- app_assoc.
Qed.

Lemma batch_run (files : list File) (jd : jsstring) (w : World) :
  evaluateBatchWithATS server base files jd w
  = (inr (successes (evaluations server base files jd w)),
     after_turns server base files jd w).
Proof.
  unfold evaluateBatchWithATS, try_catch. now rewrite evaluate_each_run.
Qed.

Lemma evaluations_files (files : list File) (jd : jsstring) (w : World) :
  map fst (evaluations server base files jd w) = files.
Proof.
  revert w. induction files as [|file rest IH]; intros w; simpl;
    [reflexivity|]. now rewrite IH.
Qed.

Lemma after_turn_console (file : File) (jd : jsstring) (w : World) :
  console (after_turn server base file jd w)
  = rev (failures [(file, settled (evaluateResumeWithATS server base file jd) w)])
      ++ console w.
Proof.
  unfold after_turn, settled. rewrite evaluate_run. cbn [fst].
  destruct (settle_fetch base _); reflexivity.
Qed.

Lemma after_turn_sent (file : File) (jd : jsstring) (w : World) :
  sent (after_turn server base file jd w) = next_request base file jd w :: sent w.
Proof.
  unfold after_turn. rewrite evaluate_run.
  destruct (settle_fetch base _); reflexivity.
Qed.

Lemma after_turns_console (files : list File) (jd : jsstring) (w : World) :
  console (after_turns server base files jd w)
  = rev (failures (evaluations server base files jd w)) ++ console w.
Proof.
  revert w. induction files as [|file rest IH]; intros w; [reflexivity|].
  cbn [after_turns evaluations]. rewrite IH, after_turn_console.
  destruct (settled (evaluateResumeWithATS server base file jd) w); cbn;
    [|reflexivity].
  now rewrite <- app_assoc.
Qed.

Lemma after_turns_sent (files : list File) (jd : jsstring) (w : World) :
  exists requests,
    sent (after_turns server base files jd w) = rev requests ++ sent w
    /\ map body requests
       = map (fun f => [(lit "file", FormFile f); (lit "job_description", FormText jd)])
             files.
Proof.
  revert w. induction files as [|file rest IH]; intros w.
  - exists []. split; reflexivity.
  - cbn [after_turns]. destruct (IH (after_turn server base file jd w)) as (reqs & Hs & Hb).
    exists (next_request base file jd w :: reqs). split.
    + rewrite Hs, after_turn_sent. cbn [rev]. now rewrite <- app_assoc.
    + cbn [map]. now rewrite Hb.
Qed.

Lemma successes_failures_length (l : list (File * (Exn + ATSResult))) :
  (List.length (successes l) + List.length (failures l) = List.length l)%nat.
Proof.
  induction l as [|[f [e | r]] l IH]; simpl; lia.
Qed.

End ClientFacts.

(* ------------------------------------------------------------------------- *)
(** ** Batch evaluation *)
(* ------------------------------------------------------------------------- *)

Example batch_of_three :
  settled (evaluateBatchWithATS sample_server None
             [sample_file (lit "a.pdf"); sample_file (lit "bad.pdf");
              sample_file (lit "c.pdf")] (lit "job")) sample_world
  = inr [sample_result 75 BORDERLINE_NEEDS_IMPROVEMENT (lit "a.pdf");
         sample_result 75 BORDERLINE_NEEDS_IMPROVEMENT (lit "c.pdf")].
Proof. reflexivity. Qed.

(** C5, the claim at a concrete batch: of two submitted resumes the first
    fails, and the batch returns a single result and no entry for the failed
    resume. *)
Lemma batch_drops_failed_resume :
  let files := [sample_file (lit "bad.pdf"); sample_file (lit "good.pdf")] in
  exists result,
    settled (evaluateBatchWithATS sample_server None files (lit "job")) sample_world
      = inr [result]
    /\ List.length files = 2%nat
    /\ contact_information (candidate_profile result) = [(lit "email", lit "good.pdf")].
Proof. eexists. repeat split. Qed.

(** C5, amended.  The batch never throws and evaluates every submitted
    resume, one request each, in upload order, whatever fails before.  It
    returns the results of the resumes that succeeded, in upload order; for
    each resume that failed it writes one line with the file's name and the
    error to the console and returns nothing.  Results and console lines
    together account for every resume. *)
Theorem batch_tolerates_failures
    (server : list Request -> Request -> FetchOutcome) (base : option jsstring)
    (files : list File) (jd : jsstring) (w : World) :
  let runs := evaluations server base files jd w in
  let w' := world_after (evaluateBatchWithATS server base files jd) w in
  settled (evaluateBatchWithATS server base files jd) w = inr (successes runs)
  /\ map fst runs = files
  /\ console w' = rev (failures runs) ++ console w
  /\ (List.length (successes runs) + List.length (failures runs)
      = List.length files)%nat
  /\ exists requests,
       sent w' = rev requests ++ sent w
       /\ map body requests
          = map (fun f => [(lit "file", FormFile f);
                           (lit "job_description", FormText jd)]) files.
Proof.
  intros runs w'. unfold w', settled, world_after. rewrite batch_run. cbn [fst snd].
  split; [reflexivity|].
  split; [apply evaluations_files|].
  split; [apply after_turns_console|].
  split; [|apply after_turns_sent].
  rewrite successes_failures_length. unfold runs.
  rewrite <- (evaluations_files server base files jd w) at 2.
  now rewrite length_map.
Qed.

Example batch_console_of_three :
  console (world_after (evaluateBatchWithATS sample_server None
             [sample_file (lit "a.pdf"); sample_file (lit "bad.pdf");
              sample_file (lit "c.pdf")] (lit "job")) sample_world)
  = [FailedToEvaluate (lit "bad.pdf") (Error (lit "Could not extract text"))].
Proof. reflexivity. Qed.

(* ------------------------------------------------------------------------- *)
(** ** A single evaluation *)
(* ------------------------------------------------------------------------- *)

(** Two evaluations of the same resume do not send the same request: the
    headers carry the time and a random id. *)
Example runs_differ_in_headers :
  get (headers (next_request None (sample_file (lit "a.pdf")) (lit "job") sample_world))
      (lit "X-Request-Id") = Some (lit "0")
  /\ get (headers (next_request None (sample_file (lit "a.pdf")) (lit "job") later_world))
      (lit "X-Request-Id") = Some (lit "x9").
Proof. split; reflexivity. Qed.

(** C8.  When the external call fails (the server is not reached, the
    response is not OK, or its body cannot be read) the evaluation settles
    with an error and with no result: the connection error, an error with the
    server's [detail] or the HTTP status, or the error of the failed read. *)
Theorem failed_call_throws
    (server : list Request -> Request -> FetchOutcome) (base : option jsstring)
    (file : File) (jd : jsstring) (w : World) :
  let outcome := server (sent w) (next_request base file jd w) in
  call_failed outcome = true ->
  exists error,
    settled (evaluateResumeWithATS server base file jd) w = inl error
    /\ (forall e, outcome = Rejected e ->
          error = if isFailedToFetch e then Error (unreachable_message base) else e)
    /\ (forall status json, outcome = Responded (NotOk status json) ->
          error = not_ok_error status json)
    /\ (forall e, outcome = Responded (Ok (inl e)) -> error = e)
    /\ sent (world_after (evaluateResumeWithATS server base file jd) w)
       = next_request base file jd w :: sent w.
Proof.
  intros outcome Hfail. unfold settled, world_after. rewrite evaluate_run.
  cbn [fst snd]. fold outcome.
  destruct outcome as [e | [[e | r] | status json]]; cbn [settle_fetch];
    try discriminate; eexists; (split; [reflexivity|]);
    repeat split; intros;
    match goal with
    | H : _ = _ |- _ => now inversion H
    end.
Qed.

Lemma failed_call_throws_witness :
  exists error,
    settled (evaluateResumeWithATS sample_server None (sample_file (lit "bad.pdf"))
               (lit "job")) sample_world = inl error
    /\ error = Error (lit "Could not extract text").
Proof.
  destruct (@failed_call_throws sample_server None (sample_file (lit "bad.pdf"))
              (lit "job") sample_world eq_refl)
    as (error & Hsettled & _ & Hnot_ok & _).
  exists error. split; [exact Hsettled|].
  exact (Hnot_ok 500%N (Detail (Some (lit "Could not extract text"))) eq_refl).
Defined.

(** The score monitor of the Results page keeps the last score it saw and
    reloads the page when it sees that score again; the result it displays is
    not its to change. *)
Example monitor_reloads_on_same_score :
  monitor_score None 75 (lit "k3x9") = (false, Some 75)
  /\ monitor_score (Some 75) 75 (lit "k3x9") = (true, Some 75)
  /\ monitor_score (Some 75) 80 (lit "k3x9") = (false, Some 80).
Proof. repeat split. Qed.

Example unreachable_server :
  settled (evaluateResumeWithATS (fun _ _ => Rejected FailedToFetch) None
             (sample_file (lit "a.pdf")) (lit "job")) sample_world
  = inl (Error (lit "Unable to connect to server. Please ensure the backend is running on http://localhost:8000.")).
Proof. reflexivity. Qed.

Example status_without_detail :
  settled (evaluateResumeWithATS (fun _ _ => Responded (NotOk 503 NotJson)) None
             (sample_file (lit "a.pdf")) (lit "job")) sample_world
  = inl (Error (lit "HTTP error! status: 503")).
Proof. reflexivity. Qed.

(* ------------------------------------------------------------------------- *)
(** ** The screening request *)
(* ------------------------------------------------------------------------- *)

Lemma finalJobDescription_setIsAnalyzing (b : bool) (st : IndexState) :
  finalJobDescription (setIsAnalyzing b st) = finalJobDescription st.
Proof. reflexivity. Qed.

(** A request whose final job description is shorter than 50 code units:
    the attempt throws the validation error before anything else happens. *)
Lemma screening_attempt_too_short
    (server : list Request -> Request -> FetchOutcome) (base : option jsstring)
    (resume : File) (st : IndexState) (jd : jsstring) (w : World) :
  finalJobDescription st = inr jd ->
  (List.length jd < 50)%nat ->
  screening_attempt server base resume st w = (inl (Error too_short_message), w).
Proof.
  intros Hjd Hlen. unfold screening_attempt, bind at 1. rewrite Hjd. cbn [lift].
  unfold ret at 1. apply Nat.ltb_lt in Hlen. now rewrite Hlen.
Qed.

(** A request whose final job description has 50 code units or more: the
    attempt goes on to the evaluation and follows what it settles with. *)
Lemma screening_attempt_run
    (server : list Request -> Request -> FetchOutcome) (base : option jsstring)
    (resume : File) (st : IndexState) (jd : jsstring) (w : World) :
  finalJobDescription st = inr jd ->
  (50 <= List.length jd)%nat ->
  screening_attempt server base resume st w
  = match evaluateResumeWithATS server base resume jd w with
    | (inl error, w1) => (inl error, w1)
    | (inr result, w1) =>
        let w2 := if isDummyData result
                  then record_toast (toast_error (lit
                         "Warning: Dummy data detected. Backend may not be processing correctly."))
                         w1
                  else w1 in
        (inr {| resumeFile := None; jobDescFile := None; jobDescText := [];
                isAnalyzing := true |},
         record_navigation
           {| nav_atsResult := result;
              nav_timestamp := clock w2 (clock_reads w2);
              nav_uploadId := entropy w2 (entropy_reads w2) |}
           (tick_entropy (tick_clock w2)))
    end.
Proof.
  intros Hjd Hlen. unfold screening_attempt, bind at 1. rewrite Hjd. cbn [lift].
  unfold ret at 1. apply Nat.ltb_ge in Hlen. rewrite Hlen.
  unfold bind at 1.
  destruct (evaluateResumeWithATS server base resume jd w) as [[error | result] w1];
    [reflexivity|].
  destruct (isDummyData result); reflexivity.
Qed.

Lemma screening_attempt_long_enough
    (server : list Request -> Request -> FetchOutcome) (base : option jsstring)
    (resume : File) (st : IndexState) (jd : jsstring) (w : World) :
  finalJobDescription st = inr jd ->
  (50 <= List.length jd)%nat ->
  sent (snd (screening_attempt server base resume st w))
    = next_request base resume jd w :: sent w
  /\ match settled (evaluateResumeWithATS server base resume jd) w with
     | inl error =>
         screening_attempt server base resume st w
         = (inl error, world_after (evaluateResumeWithATS server base resume jd) w)
     | inr result =>
         (exists st', fst (screening_attempt server base resume st w) = inr st')
         /\ option_map nav_atsResult
              (hd_error (navigations (snd (screening_attempt server base resume st w))))
            = Some result
     end.
Proof.
  intros Hjd Hlen. rewrite (screening_attempt_run server base resume st w Hjd Hlen).
  unfold settled, world_after. rewrite evaluate_run. cbn [fst snd].
  destruct (settle_fetch base _) as [error | result].
  - split; reflexivity.
  - destruct (isDummyData result); cbn; split; try reflexivity;
      (split; [eexists; reflexivity | reflexivity]).
Qed.

(** C7.  For a screening request that has a resume and a job description,
    with final job-description text [jd]: if [jd] is shorter than 50 the
    request fails with the validation error, shown as a toast, and neither a
    request is sent nor a navigation made; if [jd] has 50 code units or more
    the validation does not fire: the evaluation request is sent with [jd],
    and an error, if there is one, is the evaluation's. *)
Theorem screening_validates_length
    (server : list Request -> Request -> FetchOutcome) (base : option jsstring)
    (st : IndexState) (resume : File) (jd : jsstring) (w : World) :
  resumeFile st = Some resume ->
  hasJobDescription st = true ->
  finalJobDescription st = inr jd ->
  let attempt := screening_attempt server base resume (setIsAnalyzing true st) in
  let after := snd (handleScreening server base st w) in
  ((List.length jd < 50)%nat ->
     settled attempt w = inl (Error too_short_message)
     /\ sent after = sent w
     /\ navigations after = navigations w
     /\ toasts after = toast_error too_short_message :: toasts w)
  /\ ((50 <= List.length jd)%nat ->
     sent after = next_request base resume jd w :: sent w
     /\ body (next_request base resume jd w)
        = [(lit "file", FormFile resume); (lit "job_description", FormText jd)]
     /\ forall error,
          settled attempt w = inl error ->
          settled (evaluateResumeWithATS server base resume jd) w = inl error).
Proof.
  intros Hresume Hhas Hjd attempt after.
  unfold after, handleScreening. rewrite Hresume, Hhas. fold attempt.
  split; intros Hlen.
  - unfold settled, attempt.
    rewrite (@screening_attempt_too_short server base resume _ jd w
               (eq_trans (finalJobDescription_setIsAnalyzing true st) Hjd) Hlen).
    repeat split.
  - destruct (@screening_attempt_long_enough server base resume
                (setIsAnalyzing true st) jd w
                (eq_trans (finalJobDescription_setIsAnalyzing true st) Hjd) Hlen)
      as [Hsent Hfollow].
    fold attempt in Hsent, Hfollow.
    split; [|split; [reflexivity|]].
    + destruct (attempt w) as [[error | st'] w'] eqn:E; cbn [snd] in *; exact Hsent.
    + intros error Herr. unfold settled in *.
      destruct (fst (evaluateResumeWithATS server base resume jd w)) as [e | r].
      * rewrite Hfollow in Herr. cbn [fst] in Herr. congruence.
      * destruct Hfollow as [[st' Hst] _]. congruence.
Qed.

(** The caller's side of a failed evaluation: the error's message is shown
    as a toast and the page does not navigate to any result. *)
Lemma screening_reports_failure
    (server : list Request -> Request -> FetchOutcome) (base : option jsstring)
    (st : IndexState) (resume : File) (jd : jsstring) (w : World) (error : Exn) :
  resumeFile st = Some resume ->
  hasJobDescription st = true ->
  finalJobDescription st = inr jd ->
  (50 <= List.length jd)%nat ->
  settled (evaluateResumeWithATS server base resume jd) w = inl error ->
  toasts (snd (handleScreening server base st w))
    = toast_error (message error) :: toasts w
  /\ navigations (snd (handleScreening server base st w)) = navigations w.
Proof.
  intros Hresume Hhas Hjd Hlen Herr.
  unfold handleScreening. rewrite Hresume, Hhas.
  rewrite (@screening_attempt_run server base resume _ jd w
             (eq_trans (finalJobDescription_setIsAnalyzing true st) Hjd) Hlen).
  unfold settled in Herr. rewrite evaluate_run in *. cbn [fst] in Herr.
  rewrite Herr. split; reflexivity.
Qed.

Lemma screening_validates_length_witness :
  (settled (screening_attempt sample_server None (sample_file (lit "cv.pdf"))
              (setIsAnalyzing true short_request)) sample_world
     = inl (Error too_short_message)
   /\ sent (snd (handleScreening sample_server None short_request sample_world)) = []
   /\ toasts (snd (handleScreening sample_server None short_request sample_world))
      = [toast_error too_short_message])
  /\ sent (snd (handleScreening sample_server None long_request sample_world))
     = [next_request None (sample_file (lit "cv.pdf")) long_description sample_world].
Proof.
  split.
  - destruct (proj1 (@screening_validates_length sample_server None short_request
                       (sample_file (lit "cv.pdf")) (lit "React developer")
                       sample_world eq_refl eq_refl eq_refl))
      as (Hthrown & Hsent & _ & Htoasts).
    + apply Nat.ltb_lt. reflexivity.
    + repeat split; assumption.
  - destruct (proj2 (@screening_validates_length sample_server None long_request
                       (sample_file (lit "cv.pdf")) long_description
                       sample_world eq_refl eq_refl eq_refl))
      as (Hsent & _).
    + apply Nat.leb_le. reflexivity.
    + exact Hsent.
Defined.

Example screening_navigates_on_success :
  map nav_atsResult
      (navigations (snd (handleScreening sample_server None long_request sample_world)))
  = [sample_result 75 BORDERLINE_NEEDS_IMPROVEMENT (lit "cv.pdf")].
Proof. reflexivity. Qed.

Example trimmed_length_decides :
  finalJobDescription short_request = inr (lit "React developer")
  /\ List.length (lit "React developer") = 15%nat
  /\ List.length long_description = 68%nat.
Proof. repeat split. Qed.

(* ------------------------------------------------------------------------- *)
(** ** The dashboard after an analysis *)
(* ------------------------------------------------------------------------- *)

(** With a job description and at least one resume, [handleAnalyze] stores
    the ranked conversion of what the batch returned. *)
Lemma handleAnalyze_results
    (server : list Request -> Request -> FetchOutcome) (base : option jsstring)
    (st : DashboardState) (w : World) :
  nonempty (extractedJobDescription st) = true ->
  resumes st <> [] ->
  exists w0,
    results (fst (handleAnalyze server base st w))
    = analysisResults (resumes st)
        (successes (evaluations server base (resumes st)
                      (extractedJobDescription st) w0))
    /\ sent w0 = sent w.
Proof.
  intros Hjd Hres. unfold handleAnalyze. rewrite Hjd. cbn [negb].
  destruct (resumes st) as [|f rest] eqn:E; [contradiction|]. cbn [List.length Nat.eqb].
  unfold analysis_attempt. rewrite E.
  unfold bind at 1, toast at 1. unfold bind at 1. rewrite batch_run.
  unfold bind, toast, ret. cbn [fst finish_analysis results].
  eexists. split; reflexivity.
Qed.

Example dashboard_after_analysis :
  let st := fst (handleAnalyze sample_server None sample_dashboard sample_world) in
  map filename (sortedResults (results st)) = [lit "a.pdf"; lit "bad.pdf"]
  /\ map candidate_email (sortedResults (results st))
     = [Some (lit "a.pdf"); Some (lit "c.pdf")]
  /\ shortlisted_count (sortedResults (results st)) = 2%nat
  /\ map isShortlisted (sortedResults (results st)) = [false; false].
Proof. repeat split. Qed.

(** C3.  A batch of three resumes on the dashboard, the second of which the
    server cannot read.  Alone, "bad.pdf" has no result and "c.pdf" scores 91
    and is shortlisted.  In the batch the result of "c.pdf" is shown on the
    card named "bad.pdf", at the top of the ranking, and no card is named
    "c.pdf": the conversion loop of [handleAnalyze] takes the file name at the
    result's position among the results that succeeded. *)
Theorem batch_card_shows_another_resumes_result :
  let alone := fun file_name =>
    settled (evaluateResumeWithATS grading_server None (sample_file file_name)
               (extractedJobDescription sample_dashboard)) sample_world in
  let cards :=
    sortedResults
      (results (fst (handleAnalyze grading_server None sample_dashboard sample_world))) in
  map name (resumes sample_dashboard) = [lit "a.pdf"; lit "bad.pdf"; lit "c.pdf"]
  /\ alone (lit "bad.pdf") = inl (Error (lit "Could not extract text"))
  /\ alone (lit "c.pdf")
     = inr (sample_result 91 (lit "SHORTLISTED") (lit "carol@example.com"))
  /\ map (fun card => (filename card, total_score card, isShortlisted card)) cards
     = [(lit "bad.pdf", 91%Z, true); (lit "a.pdf", 62%Z, false)]
  /\ map atsResult cards
     = [Some (sample_result 91 (lit "SHORTLISTED") (lit "carol@example.com"));
        Some (sample_result 62 BORDERLINE_NEEDS_IMPROVEMENT (lit "alice@example.com"))]
  /\ ~ In (lit "c.pdf") (map filename cards).
Proof.
  vm_compute. repeat split.
  intros H. repeat (destruct H as [H | H]; [discriminate H|]). exact H.
Qed.

(* ------------------------------------------------------------------------- *)
(** ** The generic request *)
(* ------------------------------------------------------------------------- *)

(** X1.  [request] resolves with a value exactly when the server answered OK
    with that value as its body.  For a response that is not OK it throws an
    [Error] whose message is the body's [detail] as a string when the detail
    is truthy, and "HTTP error! status: N" otherwise (no detail, a falsy one,
    a body that is not JSON, the body [null]).  The message is empty exactly
    for a truthy detail whose string is empty, as for [[]]. *)
Theorem request_resolves_only_on_ok
    (T : Type) (api : jsstring -> RequestInit -> ApiOutcome T)
    (base : option jsstring) (endpoint : jsstring) (options : RequestInit) :
  let outcome := api (API_BASE_URL base ++ endpoint) (fetch_init options) in
  (forall v : T, request api base endpoint options = inr v
                 <-> outcome = ApiResponded (ApiOk (inr v)))
  /\ (forall status json,
        outcome = ApiResponded (ApiNotOk status json) ->
        request api base endpoint options
          = inl (Error (request_error_message status json))
        /\ (request_error_message status json
              = lit "HTTP error! status: " ++ decimal status
            \/ json = ApiJson (TruthyDetail (request_error_message status json)))
        /\ (request_error_message status json = []
            <-> json = ApiJson (TruthyDetail []))).
Proof.
  intros outcome. unfold request. fold outcome. split.
  - intros v. destruct outcome as [e | [json | status json]]; split; intros H;
      try discriminate; congruence.
  - intros status json ->. split; [reflexivity|].
    assert (Hdefault : lit "HTTP error! status: " ++ decimal status <> [])
      by discriminate.
    unfold request_error_message.
    destruct json as [ | | [ | as_string]].
    + split; [now left|]. split; [contradiction | discriminate].
    + split; [now left|]. split; [contradiction | discriminate].
    + split; [now left|]. split; [contradiction | discriminate].
    + split; [now right|]. split; [now intros -> | now intros [= ->]].
Qed.

Lemma isFailedToFetch_other_message (base : option jsstring) (e : Exn) :
  message e <> lit "Failed to fetch" -> isFailedToFetch e = false.
Proof.
  intros Hne. unfold isFailedToFetch. destruct (class e); try reflexivity.
  destruct (str_eqb (message e) (lit "Failed to fetch")) eqn:E; [|reflexivity].
  apply str_eqb_eq in E. contradiction.
Qed.

(** X2.  The two paths do not agree on what a connection failure is.  A
    [TypeError] whose message contains "fetch" without being "Failed to
    fetch" is reported by [request] as "Cannot connect to server...", while
    [evaluateResumeWithATS] rethrows it as it is. *)
Theorem connection_errors_differ
    (T : Type) (api : jsstring -> RequestInit -> ApiOutcome T)
    (server : list Request -> Request -> FetchOutcome) (base : option jsstring)
    (endpoint : jsstring) (options : RequestInit)
    (file : File) (jd : jsstring) (w : World) (e : Exn) :
  class e = TypeErrorClass ->
  includes (message e) (lit "fetch") = true ->
  message e <> lit "Failed to fetch" ->
  api (API_BASE_URL base ++ endpoint) (fetch_init options) = ApiRejected e ->
  server (sent w) (next_request base file jd w) = Rejected e ->
  request api base endpoint options = inl (Error (cannot_connect_message base))
  /\ settled (evaluateResumeWithATS server base file jd) w = inl e.
Proof.
  intros Hclass Hincl Hne Hapi Hserver. split.
  - unfold request. rewrite Hapi. unfold request_catch. now rewrite Hclass, Hincl.
  - unfold settled. rewrite evaluate_run. cbn [fst]. rewrite Hserver.
    cbn [settle_fetch]. now rewrite (isFailedToFetch_other_message base e Hne).
Qed.

Lemma connection_errors_differ_witness :
  let e := {| class := TypeErrorClass;
              message := lit "NetworkError when attempting to fetch resource." |} in
  request (fun _ _ => @ApiRejected unit e) None (lit "/api/health")
          {| init_method := None; init_body := None; init_headers := None |}
    = inl (Error (lit "Cannot connect to server. Please ensure the backend is running on http://localhost:8000"))
  /\ settled (evaluateResumeWithATS (fun _ _ => Rejected e) None
                (sample_file (lit "a.pdf")) long_description) sample_world
     = inl e.
Proof.
  apply (@connection_errors_differ unit
           (fun _ _ => ApiRejected
              {| class := TypeErrorClass;
                 message := lit "NetworkError when attempting to fetch resource." |})
           (fun _ _ => Rejected
              {| class := TypeErrorClass;
                 message := lit "NetworkError when attempting to fetch resource." |})
           None (lit "/api/health")
           {| init_method := None; init_body := None; init_headers := None |}
           (sample_file (lit "a.pdf")) long_description sample_world).
  - reflexivity.
  - reflexivity.
  - discriminate.
  - reflexivity.
  - reflexivity.
Defined.

(* ------------------------------------------------------------------------- *)
(** ** File type checks *)
(* ------------------------------------------------------------------------- *)

Lemma split_dot_nonempty (s : jsstring) : split_dot s <> [].
Proof.
  induction s as [|c s IH]; simpl; [discriminate|].
  destruct (c =? 46)%N; [discriminate|].
  destruct (split_dot s); [contradiction | discriminate].
Qed.

Lemma pop_cons (x : jsstring) (l : list jsstring) : l <> [] -> pop (x :: l) = pop l.
Proof. destruct l; [contradiction | reflexivity]. Qed.

Lemma split_dot_no_dot (s : jsstring) : ~ In 46%N s -> split_dot s = [s].
Proof.
  induction s as [|c s IH]; intros Hno; simpl; [reflexivity|].
  destruct (N.eqb_spec c 46) as [->|_]; [exfalso; apply Hno; now left|].
  rewrite IH; [reflexivity|]. intros Hin. apply Hno. now right.
Qed.

Lemma pop_split_dot_app (stem ext : jsstring) :
  pop (split_dot (stem ++ 46%N :: ext)) = pop (split_dot ext).
Proof.
  induction stem as [|c stem IH]; simpl.
  - apply pop_cons, split_dot_nonempty.
  - destruct (c =? 46)%N.
    + rewrite pop_cons; [exact IH | apply split_dot_nonempty].
    + destruct (split_dot (stem ++ 46%N :: ext)) as [|piece pieces] eqn:E.
      * exfalso. now apply (split_dot_nonempty (stem ++ 46%N :: ext)).
      * rewrite <- IH. destruct pieces; [|reflexivity].
        (* a single piece cannot hold the dot *)
        exfalso. clear IH.
        assert (H : forall s, In 46%N s -> (1 < List.length (split_dot s))%nat).
        { clear. induction s as [|c s IH]; intros Hin; simpl; [contradiction|].
          destruct (N.eqb_spec c 46) as [->|Hc].
          - simpl. pose proof (split_dot_nonempty s).
            destruct (split_dot s); [contradiction | simpl; lia].
          - destruct Hin as [->|Hin]; [contradiction|].
            specialize (IH Hin). destruct (split_dot s); simpl in *; lia. }
        specialize (H (stem ++ 46%N :: ext)). rewrite E in H. simpl in H.
        assert (Hin : In 46%N (stem ++ 46%N :: ext))
          by (apply in_or_app; right; now left).
        specialize (H Hin). lia.
Qed.

Lemma fileExtension_of_suffix (stem ext : jsstring) :
  ~ In 46%N ext ->
  fileExtension (stem ++ lit "." ++ ext) = lit "." ++ toLowerCase ext
  /\ fileExtension ext = lit "." ++ toLowerCase ext.
Proof.
  intros Hno. split.
  - unfold fileExtension. change (lit "." ++ ext) with (46%N :: ext).
    rewrite pop_split_dot_app, split_dot_no_dot by exact Hno. reflexivity.
  - unfold fileExtension. rewrite split_dot_no_dot by exact Hno. reflexivity.
Qed.

Lemma allowed_suffix (ext : jsstring) :
  Array_includes allowedExtensions (lit "." ++ toLowerCase ext)
  = Array_includes [lit "pdf"; lit "doc"; lit "docx"; lit "txt"] (toLowerCase ext).
Proof.
  unfold Array_includes, allowedExtensions. cbn [existsb lit app str_eqb].
  rewrite !N.eqb_refl. reflexivity.
Qed.

(** X3.  Whether a file is accepted depends only on the piece of its name
    after the last dot, whatever comes before: the file is accepted exactly
    when that piece is pdf, doc, docx or txt in any letter case.  A name
    without a dot is tested as a whole, so a file named "pdf" is accepted,
    as is "cv.tar.PDF", and "cv.pdf.exe" is not. *)
Theorem fileExtension_follows_last_dot (file : File) (stem ext : jsstring) :
  ~ In 46%N ext ->
  name file = stem ++ lit "." ++ ext \/ name file = ext ->
  allowed file
  = Array_includes [lit "pdf"; lit "doc"; lit "docx"; lit "txt"] (toLowerCase ext)
  /\ fst (validateFileType file) = allowed file
  /\ lastPiece (name file) = ext.
Proof.
  intros Hno Hname. destruct (@fileExtension_of_suffix stem ext Hno) as [H1 H2].
  split; [|split].
  - unfold allowed. destruct Hname as [-> | ->]; [rewrite H1 | rewrite H2];
      apply allowed_suffix.
  - unfold validateFileType, allowed.
    destruct (Array_includes allowedExtensions (fileExtension (name file)));
      reflexivity.
  - unfold lastPiece. destruct Hname as [-> | ->].
    + change (lit "." ++ ext) with (46%N :: ext).
      rewrite pop_split_dot_app, split_dot_no_dot by exact Hno. reflexivity.
    + rewrite split_dot_no_dot by exact Hno. reflexivity.
Qed.

Lemma fileExtension_follows_last_dot_witness :
  allowed (sample_file (lit "cv.tar.PDF")) = true
  /\ fst (validateFileType (sample_file (lit "cv.tar.PDF"))) = true
  /\ lastPiece (lit "cv.tar.PDF") = lit "PDF".
Proof.
  destruct (@fileExtension_follows_last_dot (sample_file (lit "cv.tar.PDF"))
              (lit "cv.tar") (lit "PDF")) as (H1 & H2 & H3).
  - vm_compute. intros H. repeat (destruct H as [H | H]; [discriminate H|]). exact H.
  - left. reflexivity.
  - split; [exact H1|]. split; [now rewrite H2, H1 | exact H3].
Defined.

Example extension_of_double_suffix :
  allowed (sample_file (lit "cv.pdf.exe")) = false
  /\ allowed (sample_file (lit "cv.")) = false
  /\ allowed (sample_file (lit "notes.TXT")) = true
  /\ allowed (sample_file (lit "docx")) = true
  /\ allowed (sample_file (lit "pdf")) = true.
Proof. repeat split. Qed.

Lemma fold_sort_file (files : list File) (valid : list File) (invalid : list jsstring) :
  fold_left sort_file files (valid, invalid)
  = (valid ++ filter allowed files,
     invalid ++ map name (filter (fun f => negb (allowed f)) files)).
Proof.
  revert valid invalid. induction files as [|f files IH]; intros valid invalid; simpl.
  - now rewrite !app_nil_r.
  - unfold sort_file at 2. cbn [fst snd].
    destruct (allowed f); rewrite IH; simpl; now rewrite <- app_assoc.
Qed.

Lemma validateResumeFiles_run (files : list File) :
  validateResumeFiles files
  = (filter allowed files,
     (if (0 <? List.length (map name (filter (fun f => negb (allowed f)) files)))%nat
      then [InvalidResumeFiles (map name (filter (fun f => negb (allowed f)) files))]
      else [])
     ++ (if (0 <? List.length (filter allowed files))%nat
         then [ResumesUploaded (List.length (filter allowed files))
                 (map name (filter allowed files))]
         else [])).
Proof. unfold validateResumeFiles. rewrite fold_sort_file. reflexivity. Qed.

Lemma filter_split_length {A} (p : A -> bool) (l : list A) :
  (List.length (filter p l) + List.length (filter (fun x => negb (p x)) l)
   = List.length l)%nat.
Proof. induction l as [|x l IH]; simpl; [reflexivity|]. destruct (p x); simpl; lia. Qed.

(** X4.  [validateResumeFiles] returns the files with an allowed extension,
    in upload order, and every file is either returned or named in the error
    toast; the error toast is shown exactly when a file was rejected and the
    success toast exactly when one was accepted. *)
Theorem validateResumeFiles_sorts_files (files : list File) :
  let rejected := map name (filter (fun f => negb (allowed f)) files) in
  fst (validateResumeFiles files) = filter allowed files
  /\ (List.length (fst (validateResumeFiles files)) + List.length rejected
      = List.length files)%nat
  /\ (In (InvalidResumeFiles rejected) (snd (validateResumeFiles files))
      <-> rejected <> [])
  /\ (In (ResumesUploaded (List.length (filter allowed files))
                          (map name (filter allowed files)))
         (snd (validateResumeFiles files))
      <-> filter allowed files <> [])
  /\ (forall shown, In shown (snd (validateResumeFiles files)) ->
        shown = InvalidResumeFiles rejected
        \/ shown = ResumesUploaded (List.length (filter allowed files))
                                   (map name (filter allowed files))).
Proof.
  intros rejected. rewrite validateResumeFiles_run. fold rejected. cbn [fst snd].
  split; [reflexivity|]. split.
  { unfold rejected. rewrite length_map. apply filter_split_length. }
  destruct rejected as [|r rs]; destruct (filter allowed files) as [|f fs];
    cbn [List.length Nat.ltb Nat.leb app map In];
    intuition (try discriminate; try congruence; subst; auto).
Qed.

Lemma allowed_extension_is_listed (e : jsstring) :
  Array_includes allowedExtensions e = true ->
  e = lit ".pdf" \/ e = lit ".doc" \/ e = lit ".docx" \/ e = lit ".txt".
Proof.
  unfold Array_includes, allowedExtensions. intros H.
  apply existsb_exists in H as (x & Hin & Heq). apply str_eqb_eq in Heq. subst x.
  cbn [In] in Hin. destruct Hin as [H | [H | [H | [H | []]]]]; rewrite <- H; auto.
Qed.

Lemma allowed_is_not_suspicious (e : jsstring) :
  Array_includes allowedExtensions e = true ->
  Array_includes suspiciousExtensions e = false.
Proof.
  intros H. apply allowed_extension_is_listed in H as [-> | [-> | [-> | ->]]];
    reflexivity.
Qed.

(** X5.  A [FileUpload] hands a file to [onFileChange] exactly when its
    extension is allowed, and otherwise shows the invalid-type toast, for the
    last piece of the file's name, and keeps the name it showed.  The "unusual file type" warning is never shown:
    every extension it looks for has been rejected before. *)
Theorem FileUpload_accepts_allowed_only
    (label_text fileName : jsstring) (file : File) :
  let run := FileUpload_handleFile label_text fileName (Some file) in
  fst (validateFileType file) = allowed file
  /\ onFileChange_calls run = (if allowed file then [Some file] else [])
  /\ shown_name run = (if allowed file then name file else fileName)
  /\ (allowed file = false ->
      upload_toasts run = [InvalidFileType (lastPiece (name file))])
  /\ (forall e, ~ In (UnusualFileType e) (snd (validateFileType file)))
  /\ (forall e, ~ In (UnusualFileType e) (upload_toasts run)).
Proof.
  intros run. unfold run, FileUpload_handleFile, validateFileType, allowed.
  destruct (Array_includes allowedExtensions (fileExtension (name file))) eqn:E;
    cbn [negb fst snd].
  - rewrite (allowed_is_not_suspicious _ E).
    cbn [shown_name onFileChange_calls upload_toasts app].
    do 3 (split; [reflexivity|]). split; [discriminate|]. split.
    + intros e [].
    + intros e. destruct (includes _ _); cbn [In]; intros H;
        repeat (destruct H as [H | H]; [discriminate H|]); exact H.
  - cbn [shown_name onFileChange_calls upload_toasts].
    do 3 (split; [reflexivity|]). split; [reflexivity|].
    split; intros e [H | H]; try discriminate H; contradiction.
Qed.

(* ------------------------------------------------------------------------- *)
(** ** The dashboard: upload, analysis, cards *)
(* ------------------------------------------------------------------------- *)

Lemma after_turn_toasts
    (server : list Request -> Request -> FetchOutcome) (base : option jsstring)
    (file : File) (jd : jsstring) (w : World) :
  toasts (after_turn server base file jd w) = toasts w.
Proof.
  unfold after_turn. rewrite evaluate_run. destruct (settle_fetch base _); reflexivity.
Qed.

Lemma after_turns_toasts
    (server : list Request -> Request -> FetchOutcome) (base : option jsstring)
    (files : list File) (jd : jsstring) (w : World) :
  toasts (after_turns server base files jd w) = toasts w.
Proof.
  revert w. induction files as [|f files IH]; intros w; [reflexivity|].
  cbn [after_turns]. now rewrite IH, after_turn_toasts.
Qed.

Lemma convert_from_length (resumes : list File) (i : nat) (l : list ATSResult) :
  List.length (convert_from resumes i l) = List.length l.
Proof. revert i. induction l as [|r l IH]; intros i; simpl; [reflexivity|]. now rewrite IH. Qed.

Lemma analysisResults_length (resumes : list File) (l : list ATSResult) :
  List.length (analysisResults resumes l) = List.length l.
Proof.
  unfold analysisResults. rewrite (Permutation_length (Array_sort_perm _ _)).
  apply convert_from_length.
Qed.

(** The world in which the batch of [handleAnalyze] starts. *)
Lemma handleAnalyze_run
    (server : list Request -> Request -> FetchOutcome) (base : option jsstring)
    (st : DashboardState) (w : World) :
  nonempty (extractedJobDescription st) = true ->
  resumes st <> [] ->
  let w0 := record_toast
              (toast_loading (lit "Analyzing "
                 ++ decimal (N.of_nat (List.length (resumes st)))
                 ++ lit " resumes with ATS evaluation...")) w in
  let runs := evaluations server base (resumes st) (extractedJobDescription st) w0 in
  let ranked := analysisResults (resumes st) (successes runs) in
  handleAnalyze server base st w
  = (finish_analysis ranked st,
     record_toast toast_dismiss
       (record_toast
          (toast_success (lit "Successfully analyzed "
             ++ decimal (N.of_nat (List.length ranked))
             ++ lit " resumes with professional ATS evaluation!"))
          (after_turns server base (resumes st) (extractedJobDescription st) w0))).
Proof.
  intros Hjd Hres w0 runs ranked. unfold handleAnalyze. rewrite Hjd. cbn [negb].
  destruct (resumes st) as [|f rest] eqn:E; [contradiction|].
  cbn [List.length Nat.eqb].
  unfold analysis_attempt. rewrite E.
  unfold bind at 1, toast at 1. unfold bind at 1. rewrite batch_run.
  unfold bind, toast, ret. reflexivity.
Qed.

(** X6.  [handleAnalyze] refuses without a job description or without
    resumes: one error toast, nothing sent, the state as it was.  Otherwise
    it sends one evaluation per resume, in upload order, stores the ranked
    results of those that succeeded, ends with [loading] off, and announces
    "Successfully analyzed N resumes" with N the number of results, not of
    resumes; the failures are on the console only. *)
Theorem handleAnalyze_outcome
    (server : list Request -> Request -> FetchOutcome) (base : option jsstring)
    (st : DashboardState) (w : World) :
  let run := handleAnalyze server base st w in
  let w0 := record_toast
              (toast_loading (lit "Analyzing "
                 ++ decimal (N.of_nat (List.length (resumes st)))
                 ++ lit " resumes with ATS evaluation...")) w in
  let runs := evaluations server base (resumes st) (extractedJobDescription st) w0 in
  if negb (nonempty (extractedJobDescription st))
     || (List.length (resumes st) =? 0)%nat
  then fst run = st
       /\ sent (snd run) = sent w
       /\ console (snd run) = console w
       /\ exists msg, toasts (snd run) = toast_error msg :: toasts w
  else loading (fst run) = false
       /\ results (fst run) = analysisResults (resumes st) (successes runs)
       /\ (List.length (results (fst run)) + List.length (failures runs)
           = List.length (resumes st))%nat
       /\ console (snd run) = rev (failures runs) ++ console w
       /\ toasts (snd run)
          = [ toast_dismiss;
              toast_success (lit "Successfully analyzed "
                ++ decimal (N.of_nat (List.length (results (fst run))))
                ++ lit " resumes with professional ATS evaluation!");
              toast_loading (lit "Analyzing "
                ++ decimal (N.of_nat (List.length (resumes st)))
                ++ lit " resumes with ATS evaluation...") ] ++ toasts w
       /\ exists requests,
            sent (snd run) = rev requests ++ sent w
            /\ map body requests
               = map (fun f => [(lit "file", FormFile f);
                                (lit "job_description",
                                 FormText (extractedJobDescription st))])
                     (resumes st).
Proof.
  intros run w0 runs.
  destruct (nonempty (extractedJobDescription st)) eqn:Hjd; cbn [negb orb].
  - destruct (Nat.eqb_spec (List.length (resumes st)) 0) as [Hzero | Hsome].
    + unfold run, handleAnalyze. rewrite Hjd, Hzero. cbn.
      repeat split. eexists. reflexivity.
    + assert (Hres : resumes st <> []).
      { intros Hnil. rewrite Hnil in Hsome. now apply Hsome. }
      unfold run. rewrite (handleAnalyze_run server base st w Hjd Hres).
      fold w0. fold runs. cbn [fst snd finish_analysis results loading].
      split; [reflexivity|]. split; [reflexivity|]. split.
      { rewrite analysisResults_length, successes_failures_length.
        unfold runs. rewrite <- (evaluations_files server base (resumes st)
                                  (extractedJobDescription st) w0) at 2.
        now rewrite length_map. }
      split.
      { change (console (record_toast ?t (record_toast ?u ?x))) with (console x).
        unfold runs. rewrite after_turns_console. reflexivity. }
      split.
      { change (toasts (record_toast ?t (record_toast ?u ?x)))
          with (t :: u :: toasts x).
        rewrite after_turns_toasts. reflexivity. }
      change (sent (record_toast ?t (record_toast ?u ?x))) with (sent x).
      apply (after_turns_sent server base (resumes st) (extractedJobDescription st) w0).
  - unfold run, handleAnalyze. rewrite Hjd. cbn.
    repeat split. eexists. reflexivity.
Qed.

Lemma handleAnalyze_sent
    (server : list Request -> Request -> FetchOutcome) (base : option jsstring)
    (st : DashboardState) (w : World) :
  exists requests,
    sent (snd (handleAnalyze server base st w)) = rev requests ++ sent w
    /\ map body requests
       = if nonempty (extractedJobDescription st)
         then map (fun f => [(lit "file", FormFile f);
                             (lit "job_description",
                              FormText (extractedJobDescription st))])
                  (resumes st)
         else [].
Proof.
  destruct (nonempty (extractedJobDescription st)) eqn:Hjd.
  - destruct (Nat.eqb_spec (List.length (resumes st)) 0) as [Hzero | Hsome].
    + exists []. unfold handleAnalyze. rewrite Hjd, Hzero.
      apply length_zero_iff_nil in Hzero. rewrite Hzero. split; reflexivity.
    + assert (Hres : resumes st <> []).
      { intros Hnil. rewrite Hnil in Hsome. now apply Hsome. }
      rewrite (handleAnalyze_run server base st w Hjd Hres). cbn [snd].
      change (sent (record_toast ?t (record_toast ?u ?x))) with (sent x).
      destruct (after_turns_sent server base (resumes st) (extractedJobDescription st)
                  (record_toast
                     (toast_loading (lit "Analyzing "
                        ++ decimal (N.of_nat (List.length (resumes st)))
                        ++ lit " resumes with ATS evaluation...")) w))
        as (requests & Hsent & Hbody).
      exists requests. split; [exact Hsent | exact Hbody].
  - exists []. unfold handleAnalyze. rewrite Hjd. split; reflexivity.
Qed.

(** X7.  Files that the dashboard's check rejects are never sent: after an
    upload, an analysis sends exactly the accepted files, in upload order,
    and nothing when there is no job description. *)
Theorem rejected_files_are_never_sent
    (server : list Request -> Request -> FetchOutcome) (base : option jsstring)
    (files : list File) (st : DashboardState) (w : World) :
  let st1 := fst (handleMultipleFileUpload files st) in
  let w' := snd (handleAnalyze server base st1 w) in
  resumes st1 = filter allowed files
  /\ exists requests,
       sent w' = rev requests ++ sent w
       /\ map body requests
          = if nonempty (extractedJobDescription st)
            then map (fun f => [(lit "file", FormFile f);
                                (lit "job_description",
                                 FormText (extractedJobDescription st))])
                     (filter allowed files)
            else [].
Proof.
  intros st1 w'.
  assert (Hres : resumes st1 = filter allowed files).
  { unfold st1, handleMultipleFileUpload. rewrite validateResumeFiles_run. reflexivity. }
  assert (Hjd : extractedJobDescription st1 = extractedJobDescription st).
  { unfold st1, handleMultipleFileUpload. rewrite validateResumeFiles_run. reflexivity. }
  split; [exact Hres|].
  destruct (handleAnalyze_sent server base st1 w) as (requests & Hsent & Hbody).
  rewrite Hjd, Hres in Hbody.
  exists requests. split; [exact Hsent | exact Hbody].
Qed.

Lemma skipn_nth_error {A} (l : list A) (i : nat) (x : A) :
  nth_error l i = Some x -> skipn i l = x :: skipn (S i) l.
Proof.
  revert i. induction l as [|y l IH]; intros [|i] H; simpl in *; try discriminate.
  - now injection H as ->.
  - now apply IH.
Qed.

Lemma convert_from_filenames (resumes0 : list File) (l : list ATSResult) (i : nat) :
  (forall f, In f resumes0 -> name f <> []) ->
  (i + List.length l <= List.length resumes0)%nat ->
  map filename (convert_from resumes0 i l)
  = map name (firstn (List.length l) (skipn i resumes0)).
Proof.
  intros Hnames. revert i. induction l as [|r l IH]; intros i Hlen; [reflexivity|].
  cbn [convert_from map List.length] in *.
  destruct (nth_error resumes0 i) as [f|] eqn:E.
  - rewrite (skipn_nth_error _ _ E). cbn [firstn map]. f_equal.
    + unfold toScoringResult, name_at. cbn [filename]. rewrite E. cbn [option_map str_or].
      pose proof (Hnames f (nth_error_In _ _ E)) as Hne.
      destruct (name f); [contradiction | reflexivity].
    + apply IH. lia.
  - apply nth_error_None in E. lia.
Qed.

(** X8.  The file name on a card is taken by the card's position among the
    results the batch returned, not by the resume it belongs to: the names
    given are those of the first uploads, in order, however many resumes
    failed in between. *)
Theorem file_names_follow_position (resumes0 : list File) (atsResults : list ATSResult) :
  (forall f, In f resumes0 -> name f <> []) ->
  (List.length atsResults <= List.length resumes0)%nat ->
  map filename (convert_from resumes0 0 atsResults)
  = map name (firstn (List.length atsResults) resumes0)
  /\ Permutation (map filename (analysisResults resumes0 atsResults))
                 (map name (firstn (List.length atsResults) resumes0)).
Proof.
  intros Hnames Hlen.
  assert (H : map filename (convert_from resumes0 0 atsResults)
              = map name (firstn (List.length atsResults) resumes0)).
  { now rewrite convert_from_filenames by (auto; lia). }
  split; [exact H|].
  rewrite <- H. apply Permutation_map. unfold analysisResults. apply Array_sort_perm.
Qed.

Lemma file_names_follow_position_witness :
  let uploads := resumes sample_dashboard in
  let returned := [sample_result 75 BORDERLINE_NEEDS_IMPROVEMENT (lit "a.pdf");
                   sample_result 75 BORDERLINE_NEEDS_IMPROVEMENT (lit "c.pdf")] in
  map filename (convert_from uploads 0 returned) = [lit "a.pdf"; lit "bad.pdf"]
  /\ Permutation (map filename (analysisResults uploads returned))
                 [lit "a.pdf"; lit "bad.pdf"].
Proof.
  apply (@file_names_follow_position (resumes sample_dashboard)
           [sample_result 75 BORDERLINE_NEEDS_IMPROVEMENT (lit "a.pdf");
            sample_result 75 BORDERLINE_NEEDS_IMPROVEMENT (lit "c.pdf")]).
  - intros f Hin. cbn in Hin.
    repeat (destruct Hin as [<- | Hin]; [discriminate|]). contradiction.
  - cbn. lia.
Defined.

Lemma sorted_threshold_prefix {A} (key : A -> Z) (t : Z) (l : list A) :
  StronglySorted (descending key) l ->
  filter (fun a => (t <=? key a)%Z) l
  = firstn (List.length (filter (fun a => (t <=? key a)%Z) l)) l
  /\ Forall (fun a => (key a < t)%Z)
            (skipn (List.length (filter (fun a => (t <=? key a)%Z) l)) l).
Proof.
  induction 1 as [|x l Hsorted IH Hx]; [split; [reflexivity | constructor]|].
  cbn [filter]. destruct (Z.leb_spec t (key x)) as [Hle | Hlt].
  - cbn [List.length firstn skipn]. destruct IH as [IH1 IH2].
    split; [now rewrite <- IH1 | exact IH2].
  - assert (Hall : Forall (fun a => (key a < t)%Z) l).
    { eapply Forall_impl; [|exact Hx]. unfold descending. intros a Ha. lia. }
    assert (Hnone : filter (fun a => (t <=? key a)%Z) l = []).
    { clear -Hall. induction Hall as [|a l Ha _ IH]; [reflexivity|].
      cbn [filter]. destruct (Z.leb_spec t (key a)); [lia | exact IH]. }
    rewrite Hnone. cbn [List.length firstn skipn].
    split; [reflexivity | now constructor].
Qed.

(** X9.  The number the header announces as shortlisted counts the cards
    at the top of the ranking: the first [k] cards have a rounded score of 70
    or more and every card below them has less, so below that line a card is
    shortlisted only by the status the server gave. *)
Theorem header_counts_the_top_cards (resumes0 : list File) (atsResults : list ATSResult) :
  let shown := sortedResults (analysisResults resumes0 atsResults) in
  let k := shortlisted_count shown in
  Forall (fun r => (70 <= total_score r)%Z) (firstn k shown)
  /\ Forall (fun r => (total_score r < 70)%Z) (skipn k shown)
  /\ Forall (fun r => isShortlisted r = is_shortlisted r) (skipn k shown)
  /\ (k <= List.length shown)%nat.
Proof.
  intros shown k.
  assert (Hsorted : StronglySorted (descending total_score) shown).
  { unfold shown. rewrite sortedResults_same. unfold analysisResults.
    apply Array_sort_descending, by_total_score_swap. }
  destruct (sorted_threshold_prefix 70 Hsorted) as [Hprefix Hbelow].
  fold (shortlisted_count shown) in Hprefix, Hbelow. fold k in Hprefix, Hbelow.
  split.
  { rewrite <- Hprefix. apply Forall_forall. intros r Hr.
    apply filter_In in Hr as [_ Hr]. now apply Z.leb_le in Hr. }
  split; [exact Hbelow|]. split.
  { eapply Forall_impl; [|exact Hbelow]. intros r Hr. cbv beta in Hr.
    unfold isShortlisted.
    destruct (Z.leb_spec 80 (total_score r)); [lia|]. now rewrite orb_false_r. }
  unfold k, shortlisted_count. apply filter_length_le.
Qed.

(* ------------------------------------------------------------------------- *)
(** ** The screening page: when a request is sent, and what follows *)
(* ------------------------------------------------------------------------- *)

Lemma cons_neq {A} (x : A) (l : list A) : x :: l <> l.
Proof.
  intros H. apply (f_equal (@List.length A)) in H. simpl in H. lia.
Qed.

Lemma screening_attempt_read_failure
    (server : list Request -> Request -> FetchOutcome) (base : option jsstring)
    (resume : File) (st : IndexState) (e : Exn) (w : World) :
  finalJobDescription st = inl e ->
  screening_attempt server base resume st w = (inl e, w).
Proof.
  intros H. unfold screening_attempt, bind at 1. rewrite H. reflexivity.
Qed.

Lemma handleScreening_sent
    (server : list Request -> Request -> FetchOutcome) (base : option jsstring)
    (st : IndexState) (resume : File) (w : World) :
  resumeFile st = Some resume ->
  hasJobDescription st = true ->
  sent (snd (handleScreening server base st w))
  = sent (snd (screening_attempt server base resume (setIsAnalyzing true st) w)).
Proof.
  intros Hr Hh. unfold handleScreening. rewrite Hr, Hh.
  destruct (screening_attempt server base resume (setIsAnalyzing true st) w)
    as [[e | st'] w']; reflexivity.
Qed.

(** X10.  [handleScreening] sends at most one request, and it sends one
    exactly when a resume is chosen, a job description is present, its text
    can be read and the final text has 50 code units or more. *)
Theorem handleScreening_sends_exactly_when
    (server : list Request -> Request -> FetchOutcome) (base : option jsstring)
    (st : IndexState) (w : World) :
  let after := snd (handleScreening server base st w) in
  (sent after = sent w
   \/ exists resume jd, sent after = next_request base resume jd w :: sent w)
  /\ (sent after <> sent w
      <-> exists resume jd,
            resumeFile st = Some resume /\ hasJobDescription st = true
            /\ finalJobDescription st = inr jd /\ (50 <= List.length jd)%nat).
Proof.
  intros after.
  destruct (resumeFile st) as [resume|] eqn:Hr.
  2:{ assert (H : sent after = sent w).
      { unfold after, handleScreening. rewrite Hr. reflexivity. }
      split; [now left|]. split; [intros Hne; contradiction|].
      intros (r & jd & Habs & _). discriminate. }
  destruct (hasJobDescription st) eqn:Hh.
  2:{ assert (H : sent after = sent w).
      { unfold after, handleScreening. rewrite Hr, Hh. reflexivity. }
      split; [now left|]. split; [intros Hne; contradiction|].
      intros (r & jd & _ & Habs & _). discriminate. }
  unfold after. rewrite (handleScreening_sent server base st w Hr Hh).
  pose proof (finalJobDescription_setIsAnalyzing true st) as Hfinal.
  destruct (finalJobDescription st) as [e | jd] eqn:Hjd.
  - rewrite (screening_attempt_read_failure server base resume _ w Hfinal).
    cbn [snd]. split; [now left|]. split; [intros Hne; contradiction|].
    intros (r & jd & _ & _ & Habs & _). discriminate.
  - destruct (Nat.ltb_spec (List.length jd) 50) as [Hshort | Hlong].
    + rewrite (screening_attempt_too_short server base resume _ w Hfinal Hshort).
      cbn [snd]. split; [now left|]. split; [intros Hne; contradiction|].
      intros (r & jd' & _ & _ & Heq & Hlen). injection Heq as <-. lia.
    + destruct (screening_attempt_long_enough server base resume _ w Hfinal Hlong)
        as [Hsent _].
      rewrite Hsent. split; [right; now exists resume, jd|]. split.
      * intros _. now exists resume, jd.
      * intros _. apply cons_neq.
Qed.

(** X11.  After a job-description file has been loaded, the text that is
    validated and sent is the file's text trimmed, unless the file is all
    white space; then it is the raw text.  The 50-unit minimum is measured on
    that text, so a file of 50 or more white-space characters passes. *)
Theorem loaded_description_is_validated
    (server : list Request -> Request -> FetchOutcome) (base : option jsstring)
    (st : IndexState) (resume file : File) (content : jsstring) (w : World) :
  resumeFile st = Some resume ->
  text file = Some content ->
  let loaded := handleJobDescFileChange file st w in
  let final := if nonempty (trim content) then trim content else content in
  let after := snd (handleScreening server base (fst loaded) (snd loaded)) in
  jobDescText (fst loaded) = content
  /\ finalJobDescription (fst loaded) = inr final
  /\ sent after
     = (if (List.length final <? 50)%nat then sent w
        else next_request base resume final w :: sent w).
Proof.
  intros Hr Ht loaded final after.
  assert (Hloaded : loaded
            = ({| resumeFile := Some resume; jobDescFile := Some file;
                  jobDescText := content; isAnalyzing := isAnalyzing st |},
               record_toast (toast_success
                 (lit "Job description file loaded successfully!")) w)).
  { unfold loaded, handleJobDescFileChange. rewrite Ht, Hr. reflexivity. }
  assert (Hfinal : finalJobDescription (fst loaded) = inr final).
  { rewrite Hloaded. unfold finalJobDescription, final. cbn [fst jobDescText jobDescFile].
    destruct (nonempty (trim content)); [reflexivity|]. now rewrite Ht. }
  split; [now rewrite Hloaded|]. split; [exact Hfinal|].
  assert (Hres : resumeFile (fst loaded) = Some resume) by now rewrite Hloaded.
  assert (Hhas : hasJobDescription (fst loaded) = true).
  { rewrite Hloaded. unfold hasJobDescription. cbn [fst jobDescFile isSome].
    apply orb_true_r. }
  unfold after. rewrite (handleScreening_sent server base _ _ Hres Hhas).
  pose proof (eq_trans (finalJobDescription_setIsAnalyzing true (fst loaded)) Hfinal)
    as Hfinal'.
  destruct (Nat.ltb_spec (List.length final) 50) as [Hshort | Hlong].
  - rewrite (screening_attempt_too_short server base resume _ _ Hfinal' Hshort).
    now rewrite Hloaded.
  - destruct (screening_attempt_long_enough server base resume _ (snd loaded)
                Hfinal' Hlong) as [Hsent _].
    rewrite Hsent. now rewrite Hloaded.
Qed.

Lemma loaded_description_is_validated_witness :
  let blank := repeat 32%N 60 in
  let file := {| name := lit "jd.txt"; size := 60; text := Some blank |} in
  let loaded := handleJobDescFileChange file short_request sample_world in
  finalJobDescription (fst loaded) = inr blank
  /\ sent (snd (handleScreening sample_server None (fst loaded) (snd loaded)))
     = [next_request None (sample_file (lit "cv.pdf")) blank sample_world].
Proof.
  destruct (@loaded_description_is_validated sample_server None short_request
              (sample_file (lit "cv.pdf"))
              {| name := lit "jd.txt"; size := 60; text := Some (repeat 32%N 60) |}
              (repeat 32%N 60) sample_world eq_refl eq_refl)
    as (_ & Hfinal & Hsent).
  split; [exact Hfinal | exact Hsent].
Defined.

(** X12.  A job-description file that cannot be read stays selected: the
    change handler reports the failure, and a screening started with a blank
    text box fails again on the same file, with a toast, no request and no
    navigation. *)
Theorem unreadable_job_file_blocks_screening
    (server : list Request -> Request -> FetchOutcome) (base : option jsstring)
    (st : IndexState) (resume file : File) (w : World) :
  resumeFile st = Some resume ->
  text file = None ->
  trim (jobDescText st) = [] ->
  let loaded := handleJobDescFileChange file st w in
  let after := snd (handleScreening server base (fst loaded) (snd loaded)) in
  jobDescFile (fst loaded) = Some file
  /\ hasJobDescription (fst loaded) = true
  /\ sent after = sent w
  /\ navigations after = navigations w
  /\ toasts after
     = [ toast_error (lit "Failed to read job description file");
         toast_error (lit "Failed to read job description file. Please try again.") ]
       ++ toasts w.
Proof.
  intros Hr Ht Hblank loaded after.
  assert (Hloaded : loaded
            = ({| resumeFile := Some resume; jobDescFile := Some file;
                  jobDescText := jobDescText st; isAnalyzing := isAnalyzing st |},
               record_toast (toast_error
                 (lit "Failed to read job description file. Please try again.")) w)).
  { unfold loaded, handleJobDescFileChange. rewrite Ht, Hr. reflexivity. }
  assert (Hhas : hasJobDescription (fst loaded) = true).
  { rewrite Hloaded. unfold hasJobDescription. apply orb_true_r. }
  assert (Hfinal : finalJobDescription (setIsAnalyzing true (fst loaded))
                   = inl (Error (lit "Failed to read job description file"))).
  { rewrite Hloaded. unfold finalJobDescription.
    cbn [fst setIsAnalyzing jobDescText jobDescFile].
    rewrite Hblank, Ht. reflexivity. }
  assert (Hres : resumeFile (fst loaded) = Some resume) by now rewrite Hloaded.
  split; [now rewrite Hloaded|]. split; [exact Hhas|].
  unfold after, handleScreening. rewrite Hres, Hhas.
  rewrite (screening_attempt_read_failure server base resume _ (snd loaded) Hfinal).
  rewrite Hloaded. repeat split.
Qed.

Lemma unreadable_job_file_blocks_screening_witness :
  let file := {| name := lit "jd.pdf"; size := 10; text := None |} in
  let st := {| resumeFile := Some (sample_file (lit "cv.pdf")); jobDescFile := None;
               jobDescText := lit "   "; isAnalyzing := false |} in
  let loaded := handleJobDescFileChange file st sample_world in
  let after := snd (handleScreening sample_server None (fst loaded) (snd loaded)) in
  jobDescFile (fst loaded) = Some file
  /\ hasJobDescription (fst loaded) = true
  /\ sent after = []
  /\ navigations after = []
  /\ toasts after
     = [ toast_error (lit "Failed to read job description file");
         toast_error (lit "Failed to read job description file. Please try again.") ].
Proof.
  exact (@unreadable_job_file_blocks_screening sample_server None
           {| resumeFile := Some (sample_file (lit "cv.pdf")); jobDescFile := None;
              jobDescText := lit "   "; isAnalyzing := false |}
           (sample_file (lit "cv.pdf"))
           {| name := lit "jd.pdf"; size := 10; text := None |}
           sample_world eq_refl eq_refl eq_refl).
Defined.

(** X13.  What a screening leaves behind.  When the evaluation succeeds the
    page navigates once, with that result, and the form is cleared; when it
    fails the form keeps the resume and the job description, nothing is
    navigated and the error's message is the one toast added.  Either way
    [isAnalyzing] ends false. *)
Theorem handleScreening_outcome
    (server : list Request -> Request -> FetchOutcome) (base : option jsstring)
    (st : IndexState) (resume : File) (jd : jsstring) (w : World) :
  resumeFile st = Some resume ->
  hasJobDescription st = true ->
  finalJobDescription st = inr jd ->
  (50 <= List.length jd)%nat ->
  let run := handleScreening server base st w in
  match settled (evaluateResumeWithATS server base resume jd) w with
  | inr result =>
      fst run = {| resumeFile := None; jobDescFile := None; jobDescText := [];
                   isAnalyzing := false |}
      /\ map nav_atsResult (navigations (snd run))
         = result :: map nav_atsResult (navigations w)
      /\ toasts (snd run)
         = (if isDummyData result
            then [toast_error (lit
                   "Warning: Dummy data detected. Backend may not be processing correctly.")]
            else []) ++ toasts w
  | inl error =>
      fst run = setIsAnalyzing false st
      /\ resumeFile (fst run) = Some resume
      /\ jobDescText (fst run) = jobDescText st
      /\ navigations (snd run) = navigations w
      /\ toasts (snd run) = toast_error (message error) :: toasts w
  end.
Proof.
  intros Hr Hh Hjd Hlen run. unfold run, handleScreening. rewrite Hr, Hh.
  rewrite (@screening_attempt_run server base resume _ jd w
             (eq_trans (finalJobDescription_setIsAnalyzing true st) Hjd) Hlen).
  unfold settled. rewrite evaluate_run. cbn [fst].
  destruct (settle_fetch base _) as [error | result].
  - cbn [fst snd]. repeat split. unfold setIsAnalyzing. cbn [resumeFile]. exact Hr.
  - destruct (isDummyData result); cbn; repeat split.
Qed.

Lemma handleScreening_outcome_witness :
  let run := handleScreening sample_server None long_request sample_world in
  fst run = {| resumeFile := None; jobDescFile := None; jobDescText := [];
               isAnalyzing := false |}
  /\ map nav_atsResult (navigations (snd run))
     = [sample_result 75 BORDERLINE_NEEDS_IMPROVEMENT (lit "cv.pdf")]
  /\ toasts (snd run) = [].
Proof.
  exact (@handleScreening_outcome sample_server None long_request
           (sample_file (lit "cv.pdf")) long_description sample_world
           eq_refl eq_refl eq_refl (proj1 (Nat.leb_le 50 68) eq_refl)).
Defined.

(* ------------------------------------------------------------------------- *)
(** ** The ATS evaluation page *)
(* ------------------------------------------------------------------------- *)

(** X14.  [handleEvaluate] sends every non-blank job description as it was
    typed: untrimmed, without headers and without the 50-unit minimum of the
    screening page, which sends nothing for the same short text.  It always
    ends with [isEvaluating] false, and after a failure the result shown
    before stays in the state. *)
Theorem handleEvaluate_has_no_minimum
    (server : list Request -> Request -> FetchOutcome) (base : option jsstring)
    (parse_error : Exn) (st : EvaluationState) (resume : File) (w : World) :
  ev_resumeFile st = Some resume ->
  nonempty (trim (ev_jobDescription st)) = true ->
  let run := handleEvaluate server base parse_error st w in
  sent (snd run)
  = handleEvaluate_request base resume (ev_jobDescription st) :: sent w
  /\ isEvaluating (ev_state (fst run)) = false
  /\ match ev_logged (fst run) with
     | Some error =>
         ev_atsResult (ev_state (fst run)) = ev_atsResult st
         /\ ev_toasts (fst run) = [EvaluationFailed (message error)]
     | None =>
         exists result,
           ev_atsResult (ev_state (fst run)) = Some result
           /\ ev_toasts (fst run)
              = [EvaluationComplete (ats_score result) (status result)]
     end
  /\ forall screening : IndexState,
       resumeFile screening = Some resume ->
       jobDescText screening = ev_jobDescription st ->
       (List.length (trim (ev_jobDescription st)) < 50)%nat ->
       sent (snd (handleScreening server base screening w)) = sent w.
Proof.
  intros Hr Hjd run.
  assert (Hrun : sent (snd run)
                 = handleEvaluate_request base resume (ev_jobDescription st) :: sent w
                 /\ isEvaluating (ev_state (fst run)) = false
                 /\ match ev_logged (fst run) with
                    | Some error =>
                        ev_atsResult (ev_state (fst run)) = ev_atsResult st
                        /\ ev_toasts (fst run) = [EvaluationFailed (message error)]
                    | None =>
                        exists result,
                          ev_atsResult (ev_state (fst run)) = Some result
                          /\ ev_toasts (fst run)
                             = [EvaluationComplete (ats_score result) (status result)]
                    end).
  { unfold run, handleEvaluate. rewrite Hr, Hjd. unfold bind, fetch.
    destruct (server (sent w) (handleEvaluate_request base resume (ev_jobDescription st)))
      as [e | [[e | result] | code [ | | detail]]];
      cbn; repeat split; eauto. }
  destruct Hrun as (Hsent & Hdone & Hlog).
  repeat split; try assumption.
  intros screening Hres Htext Hshort.
  assert (Hfinal : finalJobDescription screening = inr (trim (ev_jobDescription st))).
  { unfold finalJobDescription. rewrite Htext, Hjd. reflexivity. }
  assert (Hhas : hasJobDescription screening = true).
  { unfold hasJobDescription. rewrite Htext.
    destruct (trim (ev_jobDescription st)); [discriminate Hjd | reflexivity]. }
  rewrite (handleScreening_sent server base screening w Hres Hhas).
  rewrite (screening_attempt_too_short server base resume _ w
             (eq_trans (finalJobDescription_setIsAnalyzing true screening) Hfinal)
             Hshort).
  reflexivity.
Qed.

Lemma handleEvaluate_has_no_minimum_witness :
  let st := {| ev_resumeFile := Some (sample_file (lit "cv.pdf"));
               ev_jobDescription := lit "  React developer  ";
               isEvaluating := false; ev_atsResult := None |} in
  let run := handleEvaluate sample_server None (Error (lit "Unexpected token"))
               st sample_world in
  sent (snd run)
  = [handleEvaluate_request None (sample_file (lit "cv.pdf"))
       (lit "  React developer  ")]
  /\ sent (snd (handleScreening sample_server None short_request sample_world)) = [].
Proof.
  destruct (@handleEvaluate_has_no_minimum sample_server None
              (Error (lit "Unexpected token"))
              {| ev_resumeFile := Some (sample_file (lit "cv.pdf"));
                 ev_jobDescription := lit "  React developer  ";
                 isEvaluating := false; ev_atsResult := None |}
              (sample_file (lit "cv.pdf")) sample_world eq_refl eq_refl)
    as (Hsent & _ & _ & Hscreening).
  split; [exact Hsent|].
  apply (Hscreening short_request eq_refl eq_refl).
  vm_compute. lia.
Defined.

(* ------------------------------------------------------------------------- *)
(** ** The gauge and the match level of the Results page *)
(* ------------------------------------------------------------------------- *)

Lemma Qfloor_ge (k : Z) (q : Q) : (k <= Qfloor q)%Z <-> inject_Z k <= q.
Proof.
  split; intros H.
  - apply Qle_trans with (inject_Z (Qfloor q)); [|apply Qfloor_le].
    now rewrite <- Zle_Qle.
  - rewrite <- (Qfloor_Z k). now apply Qfloor_resp_le.
Qed.

Lemma round_half_up_ge (k : Z) (q : Q) :
  (k <= round_half_up q)%Z <-> inject_Z k - (1 # 2) <= q.
Proof.
  unfold round_half_up. rewrite Qfloor_ge. split; intros H; lra.
Qed.

Lemma validScore_of_Z (z : Z) : validScore (of_Z z) = of_Z (Z.max 0 (Z.min 100 z)).
Proof.
  unfold validScore.
  change (Math_round (of_Z z)) with (of_Z (round_half_up (inject_Z z))).
  rewrite round_half_up_inject_Z, or_else_zero, Math_min_of_Z, Math_max_of_Z.
  reflexivity.
Qed.

Lemma num_geq_of_Z (z k : Z) : num_geq (of_Z z) (inject_Z k) = (k <=? z)%Z.
Proof. unfold num_geq, of_Z, geq. apply Qle_bool_inject_Z. Qed.

Lemma Results_gauge_colour_bands (realScore : Q) :
  Results_gauge_colour realScore
  = if (80 <=? round_half_up realScore)%Z then lit "hsl(var(--success))"
    else if (60 <=? round_half_up realScore)%Z then lit "hsl(var(--accent))"
    else lit "hsl(var(--warning))".
Proof.
  unfold Results_gauge_colour, gauge_colour. cbn [Math_round].
  rewrite validScore_of_Z. unfold getScoreColorVar.
  change 80 with (inject_Z 80). change 60 with (inject_Z 60).
  rewrite !num_geq_of_Z.
  destruct (Z.leb_spec 80 (round_half_up realScore));
    destruct (Z.leb_spec 60 (round_half_up realScore));
    destruct (Z.leb_spec 80 (Z.max 0 (Z.min 100 (round_half_up realScore))));
    destruct (Z.leb_spec 60 (Z.max 0 (Z.min 100 (round_half_up realScore))));
    try reflexivity; lia.
Qed.

(** X15.  On the Results page the gauge is drawn from the rounded score and
    the match level from the raw one: the gauge has the success colour from
    79.5 and the warning colour below 59.5, while the level reads "High" from
    80 and "Low" below 60.  Between 79.5 and 80 the gauge is in the success
    colour beside the level "Medium". *)
Theorem gauge_and_level_bands (realScore : Q) :
  (Results_gauge_colour realScore = lit "hsl(var(--success))" <-> (159 # 2) <= realScore)
  /\ (Results_gauge_colour realScore = lit "hsl(var(--warning))" <-> realScore < (119 # 2))
  /\ (skillMatchLevel realScore = lit "High" <-> 80 <= realScore)
  /\ (skillMatchLevel realScore = lit "Low" <-> realScore < 60)
  /\ ((159 # 2) <= realScore < 80 ->
      Results_gauge_colour realScore = lit "hsl(var(--success))"
      /\ skillMatchLevel realScore = lit "Medium").
Proof.
  pose proof (round_half_up_ge 80 realScore) as H80.
  pose proof (round_half_up_ge 60 realScore) as H60.
  change (inject_Z 80 - (1 # 2)) with (80 - (1 # 2)) in H80.
  change (inject_Z 60 - (1 # 2)) with (60 - (1 # 2)) in H60.
  pose proof (geq_iff realScore 80) as G80.
  pose proof (geq_iff realScore 60) as G60.
  rewrite Results_gauge_colour_bands. unfold skillMatchLevel.
  destruct (Z.leb_spec 80 (round_half_up realScore)) as [R80 | R80];
    destruct (Z.leb_spec 60 (round_half_up realScore)) as [R60 | R60];
    destruct (geq realScore 80) eqn:E80; destruct (geq realScore 60) eqn:E60;
    repeat split; intros; try reflexivity;
    try (exfalso; match goal with
                  | H : lit _ = lit _ |- _ => vm_compute in H; discriminate H
                  end);
    try (apply geq_false in E80); try (apply geq_false in E60);
    try (apply G80 in E80); try (apply G60 in E60);
    try (apply H80 in R80); try (apply H60 in R60);
    try lra;
    try (exfalso;
         assert (~ (80 <= round_half_up realScore)%Z) as N80 by lia;
         rewrite H80 in N80; lra);
    try (exfalso;
         assert (~ (60 <= round_half_up realScore)%Z) as N60 by lia;
         rewrite H60 in N60; lra);
    try (assert (~ (60 <= round_half_up realScore)%Z) as N60 by lia;
         rewrite H60 in N60; lra);
    try (assert (~ (80 <= round_half_up realScore)%Z) as N80 by lia;
         rewrite H80 in N80; lra).
Qed.

(** X16.  The score monitor of the Results page reloads every result that has
    a non-zero score and an upload id: its first run stores the score, the
    run that this change of [lastScore] triggers finds the stored score equal
    to the shown one and schedules [window.location.reload()].  A score of 0
    never does. *)
Theorem monitor_score_reloads_on_second_run (ats : Q) (uploadId : jsstring) :
  nonempty uploadId = true ->
  let first := monitor_score None ats uploadId in
  let second := monitor_score (snd first) ats uploadId in
  fst first = false
  /\ (~ ats == 0 -> snd first = Some ats /\ fst second = true /\ snd second = Some ats)
  /\ (ats == 0 -> snd first = None /\ fst second = false).
Proof.
  intros Hid first second. unfold second, first, monitor_score. cbn [truthy fst snd].
  destruct (Qeq_bool ats 0) eqn:E; cbn [negb andb fst snd].
  - apply Qeq_bool_iff in E. split; [reflexivity|]. split.
    + intros Hne. contradiction.
    + intros _. split; reflexivity.
  - split; [reflexivity|]. split.
    + intros _. rewrite Hid, andb_true_r. repeat split.
      apply Qeq_bool_iff. reflexivity.
    + intros Hz. apply Qeq_bool_iff in Hz. congruence.
Qed.

Lemma monitor_score_reloads_on_second_run_witness :
  let first := monitor_score None 75 (lit "k3x9") in
  let second := monitor_score (snd first) 75 (lit "k3x9") in
  snd first = Some 75 /\ fst second = true.
Proof.
  destruct (@monitor_score_reloads_on_second_run 75 (lit "k3x9") eq_refl)
    as (_ & H & _).
  destruct H as (H1 & H2 & _); [vm_compute; discriminate|].
  split; [exact H1 | exact H2].
Defined.

(* ------------------------------------------------------------------------- *)
(** ** The guard of the HR dashboard and the offline sessions *)
(* ------------------------------------------------------------------------- *)

Lemma dashboard_is_guarded : route_guard (lit "/hr/dashboard") = Some hr.
Proof. reflexivity. Qed.

Lemma render_dashboard (auth : AuthState) :
  render_route auth (lit "/hr/dashboard") = ProtectedRoute auth (Some hr).
Proof. unfold render_route. now rewrite dashboard_is_guarded. Qed.

(** X17.  The guard of "/hr/dashboard" shows the dashboard exactly when
    loading is over, there is a user or the provider is offline, and the role
    is "hr".  A visitor who passes the first two tests without any role is
    sent to "/hr/dashboard", the guarded path itself. *)
Theorem dashboard_guard_admits_hr_only (auth : AuthState) :
  (render_route auth (lit "/hr/dashboard") = Children
   <-> auth_loading auth = false
       /\ (isSome (auth_user auth) || isOfflineMode auth) = true
       /\ auth_userRole auth = Some hr)
  /\ (auth_loading auth = false ->
      (isSome (auth_user auth) || isOfflineMode auth) = true ->
      auth_userRole auth = None ->
      render_route auth (lit "/hr/dashboard") = NavigateTo (lit "/hr/dashboard")).
Proof.
  rewrite render_dashboard. unfold ProtectedRoute, role_differs.
  destruct (auth_loading auth); destruct (auth_user auth) as [u|];
    destruct (isOfflineMode auth); destruct (auth_userRole auth) as [[|]|];
    cbn [isSome negb andb orb role_eqb];
    (split; [split; [intros H; try discriminate H; repeat split
                    | intros (H1 & H2 & H3);
                      try discriminate H1; try discriminate H2;
                      try discriminate H3; reflexivity]
            | intros H1 H2 H3;
              try discriminate H1; try discriminate H2; try discriminate H3;
              reflexivity]).
Qed.

(** X18.  Offline, [signIn] never fails and never looks at the password: it
    makes a user with the given email and gives the role "hr" exactly when
    the email contains "hr" in any letter case, so that the dashboard's guard
    then shows the dashboard for such an email and sends every other one
    to "/". *)
Theorem offline_signIn_grants_hr_by_email
    (signInWithPassword : jsstring -> jsstring -> SupabaseResult)
    (st : AuthState) (email password : jsstring) :
  isOfflineMode st = true ->
  let run := signIn signInWithPassword st email password in
  snd run = None
  /\ (forall other : jsstring, signIn signInWithPassword st email other = run)
  /\ option_map user_email (auth_user (fst run)) = Some email
  /\ render_route (fst run) (lit "/hr/dashboard")
     = (if includes (toLowerCase email) (lit "hr") then Children
        else NavigateTo (lit "/")).
Proof.
  intros Hoff run. unfold run, signIn. rewrite Hoff. cbn [fst snd].
  repeat split.
  rewrite render_dashboard. unfold ProtectedRoute, role_differs.
  cbn [auth_loading auth_user auth_userRole isSome negb andb].
  destruct (includes (toLowerCase email) (lit "hr")); reflexivity.
Qed.

Lemma offline_signIn_grants_hr_by_email_witness :
  let offline := {| auth_user := None; auth_session := None; auth_userRole := None;
                    auth_loading := false; isOfflineMode := true |} in
  let run := signIn (fun _ _ => SupabaseReturns None) offline
               (lit "Chris@example.com") (lit "") in
  snd run = None
  /\ render_route (fst run) (lit "/hr/dashboard") = Children.
Proof.
  destruct (@offline_signIn_grants_hr_by_email (fun _ _ => SupabaseReturns None)
              {| auth_user := None; auth_session := None; auth_userRole := None;
                 auth_loading := false; isOfflineMode := true |}
              (lit "Chris@example.com") (lit "") eq_refl)
    as (Herr & _ & _ & Hroute).
  split; [exact Herr | exact Hroute].
Defined.

(** X19.  Offline, [signUp] reports no error and only sets the role: no user
    is created and nothing is asked of the server.  Once loading is over the
    dashboard's guard therefore shows the dashboard after an offline sign-up
    as "hr", and sends a sign-up as "candidate" to "/". *)
Theorem offline_signUp_sets_the_role
    (online : jsstring -> jsstring -> jsstring -> Role -> SupabaseResult)
    (st : AuthState) (email password fullName : jsstring) (role : Role) :
  isOfflineMode st = true ->
  auth_loading st = false ->
  let run := signUp online st email password fullName role in
  snd run = None
  /\ auth_user (fst run) = auth_user st
  /\ auth_userRole (fst run) = Some role
  /\ render_route (fst run) (lit "/hr/dashboard")
     = match role with hr => Children | candidate => NavigateTo (lit "/") end.
Proof.
  intros Hoff Hload run. unfold run, signUp. rewrite Hoff. cbn [fst snd].
  repeat split.
  rewrite render_dashboard. unfold ProtectedRoute, role_differs.
  cbn [auth_loading auth_user auth_userRole isOfflineMode]. rewrite Hload.
  rewrite andb_false_r. destruct role; reflexivity.
Qed.

Lemma offline_signUp_sets_the_role_witness :
  let offline := {| auth_user := None; auth_session := None; auth_userRole := None;
                    auth_loading := false; isOfflineMode := true |} in
  let run := signUp (fun _ _ _ _ => SupabaseReturns None) offline
               (lit "a@b.c") (lit "secret") (lit "A B") hr in
  auth_user (fst run) = None
  /\ render_route (fst run) (lit "/hr/dashboard") = Children.
Proof.
  destruct (@offline_signUp_sets_the_role (fun _ _ _ _ => SupabaseReturns None)
              {| auth_user := None; auth_session := None; auth_userRole := None;
                 auth_loading := false; isOfflineMode := true |}
              (lit "a@b.c") (lit "secret") (lit "A B") hr eq_refl eq_refl)
    as (_ & Huser & _ & Hroute).
  split; [exact Huser | exact Hroute].
Defined.

(** X20.  An offline session from its start to its end.  [switchToOfflineMode]
    as "hr" navigates to the dashboard and the guard shows it; as "candidate"
    the guard sends the visitor to "/".  [signOut] then clears user and role
    and navigates to "/auth/login" but leaves the provider offline, so the
    guard no longer sends the visitor to the login page: it redirects
    "/hr/dashboard" to itself. *)
Theorem offline_session_lifecycle (st : AuthState) (role : Role) (rejects : bool) :
  let entered := switchToOfflineMode role st in
  render_route (fst entered) (lit "/hr/dashboard")
  = match role with hr => Children | candidate => NavigateTo (lit "/") end
  /\ (role = hr -> snd entered = lit "/hr/dashboard")
  /\ exists signed_out : AuthState,
       signOut rejects (fst entered) = Some (signed_out, lit "/auth/login")
       /\ auth_user signed_out = None
       /\ auth_userRole signed_out = None
       /\ isOfflineMode signed_out = true
       /\ render_route signed_out (lit "/hr/dashboard") = NavigateTo (lit "/hr/dashboard").
Proof.
  intros entered. unfold entered, switchToOfflineMode. cbn [fst snd].
  split; [rewrite render_dashboard; destruct role; reflexivity|].
  split; [intros ->; reflexivity|].
  unfold signOut. cbn [isOfflineMode negb andb auth_loading].
  eexists. split; [reflexivity|]. repeat split.
Qed.

(** X21.  Online, [signOut] clears user, session and role and navigates to
    "/auth/login" when the Supabase sign-out resolves, after which the guard
    sends a visitor of the dashboard to the login page; when the Supabase
    sign-out rejects nothing is cleared and nothing is navigated. *)
Theorem online_signOut (st : AuthState) (rejects : bool) :
  isOfflineMode st = false ->
  auth_loading st = false ->
  match signOut rejects st with
  | None => rejects = true
  | Some (signed_out, path) =>
      rejects = false
      /\ path = lit "/auth/login"
      /\ auth_user signed_out = None /\ auth_session signed_out = None
      /\ auth_userRole signed_out = None
      /\ render_route signed_out (lit "/hr/dashboard") = NavigateTo (lit "/auth/login")
  end.
Proof.
  intros Hoff Hload. unfold signOut. rewrite Hoff. cbn [negb andb].
  destruct rejects; [reflexivity|].
  repeat split. rewrite render_dashboard. unfold ProtectedRoute.
  cbn [auth_loading auth_user isOfflineMode isSome negb andb]. now rewrite Hload.
Qed.

Lemma online_signOut_witness :
  let signed_in := {| auth_user := Some {| user_id := lit "u1";
                                           user_email := lit "hr@example.com";
                                           user_metadata_role := Some hr |};
                      auth_session := Some (lit "token");
                      auth_userRole := Some hr;
                      auth_loading := false; isOfflineMode := false |} in
  match signOut false signed_in with
  | None => false = true
  | Some (signed_out, path) =>
      false = false
      /\ path = lit "/auth/login"
      /\ auth_user signed_out = None /\ auth_session signed_out = None
      /\ auth_userRole signed_out = None
      /\ render_route signed_out (lit "/hr/dashboard") = NavigateTo (lit "/auth/login")
  end.
Proof.
  exact (@online_signOut
           {| auth_user := Some {| user_id := lit "u1";
                                   user_email := lit "hr@example.com";
                                   user_metadata_role := Some hr |};
              auth_session := Some (lit "token");
              auth_userRole := Some hr;
              auth_loading := false; isOfflineMode := false |}
           false eq_refl eq_refl).
Defined.

(** X22.  The Index page sends a visitor to "/hr/dashboard" only when the
    guard of that path shows the dashboard, so this redirect never bounces. *)
Theorem Index_redirect_is_admitted (auth : AuthState) (path : jsstring) :
  Index_redirect auth = Some path ->
  path = lit "/hr/dashboard" /\ render_route auth path = Children.
Proof.
  unfold Index_redirect. intros H.
  destruct (auth_loading auth) eqn:Hl; [discriminate H|].
  destruct (auth_user auth) as [u|] eqn:Hu; [|discriminate H].
  destruct (auth_userRole auth) as [[|]|] eqn:Hrole; try discriminate H.
  cbn in H. injection H as <-. split; [reflexivity|].
  rewrite render_dashboard. unfold ProtectedRoute, role_differs.
  rewrite Hl, Hu, Hrole. reflexivity.
Qed.

Lemma Index_redirect_is_admitted_witness :
  let auth := fst (switchToOfflineMode hr initial_auth) in
  lit "/hr/dashboard" = lit "/hr/dashboard"
  /\ render_route auth (lit "/hr/dashboard") = Children.
Proof.
  exact (@Index_redirect_is_admitted (fst (switchToOfflineMode hr initial_auth))
           (lit "/hr/dashboard") eq_refl).
Defined.
